(** * go-xslate: the template virtual machine

    A shallow embedding of the opcode handlers of the xslate VM
    (package [vm], the file that declares the [TXOP_*] opcodes and the
    [tx*] handlers) and of [util/frame.go], with the properties of the
    specification that concern them.

    Go values of type [interface{}] are a tagged variant; a handler is a
    function from a [State] to a [Result State], where [Panic] stands for a
    Go run-time panic (the render is aborted).  Go's [int] is taken to be 64
    bits wide and its arithmetic wraps. *)

From Stdlib Require Import ZArith Lia Floats Ascii String.
From stdpp Require Import base list gmap strings pretty.

Open Scope Z_scope.
Set Warnings "-register-all".

(** ** Results of fallible code *)

Inductive Result (A : Type) : Type :=
| Ok (a : A)
| Panic (msg : string).
Arguments Ok {A} a.
Arguments Panic {A} msg.

Definition bind {A B : Type} (r : Result A) (k : A -> Result B) : Result B :=
  match r with
  | Ok a => k a
  | Panic m => Panic m
  end.

Notation "'let!' x ':=' r 'in' k" := (bind r (fun x => k))
  (at level 10, x name, r at level 100, k at level 200).

(** ** Machine integers *)

(** Go's [int] and [int64]: two's complement, 64 bits. *)
Definition int_wrap (z : Z) : Z := (z + 2 ^ 63) mod 2 ^ 64 - 2 ^ 63.

(** Go's [uint64]. *)
Definition uint_wrap (z : Z) : Z := z mod 2 ^ 64.

(** Conversion of an integer to [float64] (round to nearest, ties to even). *)
Definition float64_of_Z (z : Z) : float :=
  SF2Prim (binary_normalize prec emax z 0 false).

(** ** Values *)

(** The dynamic value held by an [interface{}].  [VRaw] is the [rawString]
    type of the VM; [VReflect v] is a [reflect.Value] (the reflection handle
    on [v]) itself stored in an [interface{}], as [txForStart] does.  A field
    of a struct carries its name and whether it is exported.  The signed
    integer types of Go are not told apart, nor are the unsigned ones. *)
Inductive Value : Type :=
| Nil
| VBool (b : bool)
| VInt (n : Z)
| VUint (n : Z)
| VFloat (f : float)
| VStr (s : string)
| VRaw (s : string)
| VStruct (ty : string) (fields : list (string * (bool * Value)))
| VPtr (target : Value)
| VSlice (elems : list Value)
| VArray (elems : list Value)
| VReflect (v : Value).

(** [reflect.Kind], as far as the handlers look at it. *)
Inductive Kind : Type :=
| Invalid | KBool | KInt | KUint | KFloat | KString
| KStruct | KPtr | KSlice | KArray.

(** [reflect.ValueOf(v).Kind()]; the zero [reflect.Value] that [ValueOf(nil)]
    returns has kind [Invalid]. *)
Definition Kind_of (v : Value) : Kind :=
  match v with
  | Nil => Invalid
  | VBool _ => KBool
  | VInt _ => KInt
  | VUint _ => KUint
  | VFloat _ => KFloat
  | VStr _ | VRaw _ => KString
  | VStruct _ _ | VReflect _ => KStruct
  | VPtr _ => KPtr
  | VSlice _ => KSlice
  | VArray _ => KArray
  end.

(** The sequences that [for_start] iterates over: arrays and slices. *)
Definition is_sequence (v : Value) : bool :=
  match Kind_of v with
  | KArray | KSlice => true
  | _ => false
  end.

(** [reflect.Type], as far as method lookup and the raw-string test need. *)
Inductive GoType : Type :=
| TBool | TInt | TUint | TFloat | TString
| rawStringType
| TNamed (name : string)
| TPtr (elem : GoType)
| TSlice | TArray
| TReflectValue.

(** The dynamic type of a value that is not nil (nil has none: the first
    case is never consulted, see [Type_of]). *)
Fixpoint TypeOf_nonnil (v : Value) : GoType :=
  match v with
  | Nil => TNamed ""
  | VBool _ => TBool
  | VInt _ => TInt
  | VUint _ => TUint
  | VFloat _ => TFloat
  | VStr _ => TString
  | VRaw _ => rawStringType
  | VStruct ty _ => TNamed ty
  | VPtr t => TPtr (TypeOf_nonnil t)
  | VSlice _ => TSlice
  | VArray _ => TArray
  | VReflect _ => TReflectValue
  end.

(** [reflect.ValueOf(v).Type()]: it panics on the zero [reflect.Value], that
    is, when [v] is nil. *)
Definition Type_of (v : Value) : Result GoType :=
  match v with
  | Nil => Panic "reflect: call of reflect.Value.Type on zero Value"
  | _ => Ok (TypeOf_nonnil v)
  end.

(** The test [t == rawStringType]. *)
Definition is_rawStringType (t : GoType) : bool :=
  match t with
  | rawStringType => true
  | _ => false
  end.

(** ** The operand stack *)

Module Stack.

(** Modelled from the spec: the [Stack] type of package [util]
    (util/stack.go is not among the sources).  A growable array of values
    with a tip cursor: [Push] writes at the tip and increments it, [Pop]
    decrements it and returns the value, [Get] and [Set] index absolutely,
    an out-of-range [Get] returns nil, [Cur] returns the tip.  Growth of
    the buffer cannot be observed through these operations (a slot never
    written reads as nil), so the model keeps the written prefix only; a
    [Set] at a negative index aborts. *)
Record t : Type := mk { data : list Value; cur : Z }.

(** Modelled from the spec: the empty stack. *)
Definition New : t := {| data := []; cur := 0 |}.

(** Modelled from the spec: [Cur()] returns the tip. *)
Definition Cur (s : t) : Z := cur s.

(** Modelled from the spec: [Get(i)] indexes absolutely; out of range it
    returns nil. *)
Definition Get (s : t) (i : Z) : Value :=
  if bool_decide (0 <= i) then default Nil (data s !! Z.to_nat i) else Nil.

(** The buffer with slot [n] written, the slots up to it reading nil if they
    were not there. *)
Definition write (l : list Value) (n : nat) (v : Value) : list Value :=
  <[n := v]> (l ++ replicate (S n - length l) Nil).

(** Modelled from the spec: [Set(i, v)] indexes absolutely. *)
Definition Set_ (s : t) (i : Z) (v : Value) : Result t :=
  if bool_decide (0 <= i)
  then Ok {| data := write (data s) (Z.to_nat i) v; cur := cur s |}
  else Panic "stack: index out of range".

(** Modelled from the spec: [Push(v)] writes at the tip and increments
    it. *)
Definition Push (s : t) (v : Value) : Result t :=
  let! s' := Set_ s (cur s) v in
  Ok {| data := data s'; cur := cur s + 1 |}.

(** Modelled from the spec: [Pop()] decrements the tip and returns the
    value there; the buffer does not shrink. *)
Definition Pop (s : t) : Result (Value * t) :=
  if bool_decide (0 < cur s)
  then Ok (Get s (cur s - 1), {| data := data s; cur := cur s - 1 |})
  else Panic "stack: pop of an empty stack".

End Stack.

(** ** Frames (util/frame.go) *)

Module Frame.

(** A frame holds a pointer to the main stack; the record carries the
    stack it points to, and an operation that writes through the pointer
    returns the frame with the stack as written. *)
Record t : Type := mk {
  name : string;
  stack : Stack.t;
  mark : Z
}.

Definition NewFrame (s : Stack.t) : t :=
  {| name := EmptyString; stack := s; mark := 0 |}.

Definition SetMark (f : t) (v : Z) : t :=
  {| name := name f; stack := stack f; mark := v |}.

Definition Mark (f : t) : Z := mark f.

(** [v, err := f.stack.Get(i - f.mark)]; on an error nil is returned,
    which is what the stack's [Get] gives out of range. *)
Definition GetLvar (f : t) (i : Z) : Value :=
  Stack.Get (stack f) (int_wrap (i - mark f)).

(** [f.stack.Set(i - f.mark, v)]. *)
Definition SetLvar (f : t) (i : Z) (v : Value) : Result t :=
  let! s' := Stack.Set_ (stack f) (int_wrap (i - mark f)) v in
  Ok {| name := name f; stack := s'; mark := mark f |}.

Definition DeclareVar (f : t) (v : Value) : Result (Z * t) :=
  let! s' := Stack.Push (stack f) v in
  Ok (Stack.Cur s', {| name := name f; stack := s'; mark := mark f |}).

Definition LastLvarIndex (f : t) : Z := Stack.Cur (stack f).

End Frame.

(** ** Pieces of the Go library *)

Definition quote_char : ascii := ascii_of_nat 34.
Definition newline : string := String (ascii_of_nat 10) EmptyString.

(** [html.EscapeString]: the five characters ampersand, apostrophe, less
    than, greater than and double quote are replaced by their entities. *)
Definition escape_char (c : ascii) : string :=
  if Ascii.eqb c "&"%char then "&amp;"
  else if Ascii.eqb c "'"%char then "&#39;"
  else if Ascii.eqb c "<"%char then "&lt;"
  else if Ascii.eqb c ">"%char then "&gt;"
  else if Ascii.eqb c quote_char then "&#34;"
  else String c EmptyString.

Fixpoint html_EscapeString (s : string) : string :=
  match s with
  | EmptyString => EmptyString
  | String c r => escape_char c +:+ html_EscapeString r
  end.

(** A number as [reflect.Value] holds it after [alignTypesForArithmetic]:
    what [Int()], [Uint()] or [Float()] returns, with the kind. *)
Inductive Num : Type :=
| NInt (n : Z)
| NUint (n : Z)
| NFloat (f : float).

(** A method found by [reflect.Type.MethodByName]: the number of inputs of
    its function (the receiver counts), the number of outputs, and the call
    itself, which may panic. *)
Record Method : Type := mkMethod {
  NumIn : Z;
  NumOut : Z;
  Call : list Value -> Result (list Value)
}.

(** The search of [reflect.Value.FieldByName] in the fields of a struct (the
    list holds the promoted fields too); a missing field gives the zero
    [reflect.Value], here [None]. *)
Fixpoint FieldByName (fields : list (string * (bool * Value))) (name : string)
  : option (bool * Value) :=
  match fields with
  | [] => None
  | (n, f) :: rest => if String.eqb n name then Some f else FieldByName rest name
  end.

(** [reflect.Value.FieldByName]: it panics unless the receiver is of kind
    struct, so it does on a pointer to a struct.  No field of a
    [reflect.Value] has an upper-case name. *)
Definition reflect_FieldByName (v : Value) (name : string)
  : Result (option (bool * Value)) :=
  match v with
  | VStruct _ fields => Ok (FieldByName fields name)
  | VReflect _ => Ok None
  | _ => Panic "reflect: call of reflect.Value.FieldByName on a value that is no struct"
  end.

(** [reflect.Value.Interface] on the result: it panics on the zero
    [reflect.Value] and on a field that is not exported. *)
Definition Field_Interface (f : option (bool * Value)) : Result Value :=
  match f with
  | None => Panic "reflect: call of reflect.Value.Interface on zero Value"
  | Some (false, _) =>
      Panic "reflect.Value.Interface: cannot return value obtained from unexported field or method"
  | Some (true, v) => Ok v
  end.

(** [reflect.Value.Len] and [Index] on the handle that [txForStart] stored:
    they panic unless the value is an array or a slice (strings, maps and
    channels do not reach the VM as sequences). *)
Definition reflect_elems (v : Value) : Result (list Value) :=
  match v with
  | VSlice xs | VArray xs => Ok xs
  | _ => Panic "reflect: call of reflect.Value.Len on a value that is no sequence"
  end.

Definition reflect_Index (xs : list Value) (i : Z) : Result Value :=
  if bool_decide (0 <= i)
  then match xs !! Z.to_nat i with
       | Some x => Ok x
       | None => Panic "reflect: slice index out of range"
       end
  else Panic "reflect: slice index out of range".

(** What the handlers take from the Go library and from the host: UTF-8
    decoding, upper-casing and encoding of a rune, the formatting of a float
    ([strconv.FormatFloat] with precision -1), the rendering of a structured
    value (its [String()] method or the debug rendering), the parsing of a
    number, Go's [==] on two [interface{}] values (it panics on uncomparable
    ones), and the methods of the host's types. *)
Record Host : Type := mkHost {
  DecodeRuneInString : string -> Z * nat;
  ToUpper : Z -> Z;
  string_of_rune : Z -> string;
  FormatFloat : float -> string;
  Stringify : Value -> string;
  ParseNumber : string -> option Num;
  interface_eq : Value -> Value -> Result bool;
  host_methods : GoType -> string -> option Method
}.

(** ** A sample host, for concrete runs *)

Module Sample.

(** Runes below 128 only: one byte per rune, ASCII upper-casing. *)
Definition DecodeRuneInString (s : string) : Z * nat :=
  match s with
  | EmptyString => (65533, 0%nat)
  | String c _ => (Z.of_nat (nat_of_ascii c), 1%nat)
  end.

Definition ToUpper (r : Z) : Z :=
  if bool_decide (97 <= r <= 122) then r - 32 else r.

Definition string_of_rune (r : Z) : string :=
  String (ascii_of_nat (Z.to_nat r)) EmptyString.

Definition FormatFloat (f : float) : string := "<float>".

Definition Stringify (v : Value) : string := "<value>".

Definition ParseNumber (s : string) : option Num := None.

(** Scalars compare by value, everything else is taken to differ. *)
Definition interface_eq (a b : Value) : Result bool :=
  match a, b with
  | Nil, Nil => Ok true
  | VBool x, VBool y => Ok (bool_decide (x = y))
  | VInt x, VInt y | VUint x, VUint y => Ok (x =? y)
  | VStr x, VStr y | VRaw x, VRaw y => Ok (bool_decide (x = y))
  | VFloat x, VFloat y => Ok (PrimFloat.eqb x y)
  | VSlice _, VSlice _ => Panic "runtime error: comparing uncomparable type"
  | _, _ => Ok false
  end.

(** A record type [User] with a method [Name] that returns a field, and a
    method [Touch] with no result. *)
Definition user (n : string) : Value :=
  VStruct "User" [("name", (false, VStr n)); ("Age", (true, VInt 36))].

Definition User_Name : Method :=
  {| NumIn := 1; NumOut := 1;
     Call := fun args =>
       match args with
       | [VStruct _ (( _, (_, n)) :: _)] => Ok [n]
       | _ => Panic "reflect: Call with wrong arguments"
       end |}.

Definition User_Touch : Method :=
  {| NumIn := 1; NumOut := 0; Call := fun _ => Ok [] |}.

Definition methods (t : GoType) (name : string) : option Method :=
  match t with
  | TNamed "User" =>
      if String.eqb name "Name" then Some User_Name
      else if String.eqb name "Touch" then Some User_Touch
      else None
  | _ => None
  end.

Definition host : Host :=
  mkHost DecodeRuneInString ToUpper string_of_rune FormatFloat Stringify
         ParseNumber interface_eq methods.

End Sample.

(** ** The virtual machine *)

(** The opcodes, in the order of the [const] block. *)
Inductive OpType : Type :=
| TXOP_noop | TXOP_nil | TXOP_move_to_sb | TXOP_move_from_sb | TXOP_literal
| TXOP_fetch_s | TXOP_fetch_field_s | TXOP_mark_raw | TXOP_unmark_raw
| TXOP_print | TXOP_print_raw | TXOP_save_to_lvar | TXOP_load_lvar
| TXOP_add | TXOP_sub | TXOP_mul | TXOP_div | TXOP_and | TXOP_goto
| TXOP_for_start | TXOP_for_iter | TXOP_html_escape | TXOP_uri_escape
| TXOP_eq | TXOP_ne | TXOP_popmark | TXOP_pushmark | TXOP_push
| TXOP_methodcall | TXOP_end.

(** Modelled from the spec: an operation of the bytecode, a pair of an
    opcode and an argument (the type [Op] is declared in a file that is not
    among the sources). *)
Record Op : Type := mkOp { op_type : OpType; u_arg : Value }.

(** Modelled from the spec: a frame on the frame stack of a [State].  Its
    stack pointer is the operand stack of the state, so the entry keeps the
    name and the mark only. *)
Record FrameEntry : Type := mkFrameEntry { fe_name : string; fe_mark : Z }.

(** Modelled from the spec: the execution context (the type [State] is
    declared in a file that is not among the sources): the program counter,
    the two registers, the operand stack, the mark stack, the frame stack
    (top first), the output buffer, the variable bag, the warning sink and
    the bytecode. *)
Record State : Type := mkState {
  pc : Z;
  sa : Value;
  sb : Value;
  stack : Stack.t;
  markstack : list Z;
  framestack : list FrameEntry;
  output : string;
  vars : gmap string Value;
  warn : list string;
  bytecode : list Op
}.

Definition set_pc (st : State) (n : Z) : State :=
  mkState n (sa st) (sb st) (stack st) (markstack st) (framestack st)
          (output st) (vars st) (warn st) (bytecode st).
Definition set_sa (st : State) (v : Value) : State :=
  mkState (pc st) v (sb st) (stack st) (markstack st) (framestack st)
          (output st) (vars st) (warn st) (bytecode st).
Definition set_sb (st : State) (v : Value) : State :=
  mkState (pc st) (sa st) v (stack st) (markstack st) (framestack st)
          (output st) (vars st) (warn st) (bytecode st).
Definition set_stack (st : State) (s : Stack.t) : State :=
  mkState (pc st) (sa st) (sb st) s (markstack st) (framestack st)
          (output st) (vars st) (warn st) (bytecode st).
Definition set_markstack (st : State) (m : list Z) : State :=
  mkState (pc st) (sa st) (sb st) (stack st) m (framestack st)
          (output st) (vars st) (warn st) (bytecode st).

(** Modelled from the spec: [Advance()] is PC += 1. *)
Definition Advance (st : State) : State := set_pc st (pc st + 1).

(** Modelled from the spec: [AdvanceBy(n)] is PC += n. *)
Definition AdvanceBy (st : State) (n : Z) : State := set_pc st (pc st + n).

(** Modelled from the spec: [CurrentOp()] is the operation at PC; a PC
    outside the bytecode is fatal. *)
Definition CurrentOp (st : State) : Result Op :=
  if bool_decide (0 <= pc st)
  then match bytecode st !! Z.to_nat (pc st) with
       | Some op => Ok op
       | None => Panic "PC out of range"
       end
  else Panic "PC out of range".

(** Modelled from the spec: [AppendOutputString(s)] appends to the
    output. *)
Definition AppendOutputString (st : State) (s : string) : State :=
  mkState (pc st) (sa st) (sb st) (stack st) (markstack st) (framestack st)
          (output st +:+ s) (vars st) (warn st) (bytecode st).

(** Modelled from the spec: [Warnf] records a warning (the message is
    passed formatted). *)
Definition Warnf (st : State) (msg : string) : State :=
  mkState (pc st) (sa st) (sb st) (stack st) (markstack st) (framestack st)
          (output st) (vars st) (warn st ++ [msg]) (bytecode st).

(** Modelled from the spec: [Pushmark()] pushes the tip of the operand
    stack on the mark stack. *)
Definition Pushmark (st : State) : State :=
  set_markstack st (Stack.Cur (stack st) :: markstack st).

(** Modelled from the spec: [Popmark()] pops the mark stack.  The spec does
    not say what an empty mark stack gives; here it aborts. *)
Definition Popmark (st : State) : Result State :=
  match markstack st with
  | _ :: rest => Ok (set_markstack st rest)
  | [] => Panic "mark stack is empty"
  end.

(** Modelled from the spec: [CurrentMark()] returns the top mark. *)
Definition CurrentMark (st : State) : Result Z :=
  match markstack st with
  | m :: _ => Ok m
  | [] => Panic "mark stack is empty"
  end.

(** Modelled from the spec: [CurrentFrame()] is the top of the frame stack,
    a view on the operand stack. *)
Definition CurrentFrame (st : State) : Result Frame.t :=
  match framestack st with
  | fe :: _ => Ok (Frame.mk (fe_name fe) (stack st) (fe_mark fe))
  | [] => Panic "frame stack is empty"
  end.

(** What a write through the frame's stack pointer leaves in the state. *)
Definition with_frame (st : State) (cf : Frame.t) : State :=
  set_stack st (Frame.stack cf).

(** Modelled from the spec: [Arg()], [ArgInt()] and [ArgString()] are typed
    views of the argument of an operation.  The spec does not say what an
    argument of another type gives; here it aborts. *)
Definition Arg (op : Op) : Value := u_arg op.

(** Modelled from the spec: the argument as an integer. *)
Definition ArgInt (op : Op) : Result Z :=
  match u_arg op with
  | VInt n => Ok n
  | _ => Panic "argument is no integer"
  end.

(** Modelled from the spec: the argument as a string. *)
Definition ArgString (op : Op) : Result string :=
  match u_arg op with
  | VStr s => Ok s
  | _ => Panic "argument is no string"
  end.

(** Modelled from the spec: the lookup of a string key in the variable
    bag. *)
Definition Vars_Get (vs : gmap string Value) (key : Value) : option Value :=
  match key with
  | VStr k => vs !! k
  | _ => None
  end.

(** The unreserved set of RFC 3986: letters, digits, hyphen, period,
    underscore and tilde. *)
Definition unreserved (c : ascii) : bool :=
  let n := Z.of_nat (nat_of_ascii c) in
  bool_decide (48 <= n <= 57) || bool_decide (65 <= n <= 90)
  || bool_decide (97 <= n <= 122)
  || bool_decide (n = 45) || bool_decide (n = 46)
  || bool_decide (n = 95) || bool_decide (n = 126).

Definition hexdigit (n : nat) : ascii :=
  default "0"%char (String.get n "0123456789ABCDEF").

(** Modelled from the spec: [escapeUriString], percent-encoding of every
    byte outside the unreserved set of RFC 3986. *)
Fixpoint escapeUriString (s : string) : string :=
  match s with
  | EmptyString => EmptyString
  | String c r =>
      (if unreserved c then String c EmptyString
       else String "%" (String (hexdigit (nat_of_ascii c / 16))
                         (String (hexdigit (nat_of_ascii c mod 16)) EmptyString)))
      +:+ escapeUriString r
  end.

Section VM.

Variable host : Host.

(** *** Coercions *)

(** Modelled from the spec: [interfaceToString] (its file is not among
    the sources): nil gives the empty string, a raw string its bytes, a
    string itself, a boolean [true] or [false], an integer its decimal
    form, a float its shortest representation, a structured value its
    rendering. *)
Definition interfaceToString (v : Value) : string :=
  match v with
  | Nil => EmptyString
  | VRaw s => s
  | VStr s => s
  | VBool b => if b then "true" else "false"
  | VInt n | VUint n => pretty n
  | VFloat f => FormatFloat host f
  | _ => Stringify host v
  end.

(** Modelled from the spec: [interfaceToBool]. *)
Definition interfaceToBool (v : Value) : bool :=
  match v with
  | Nil => false
  | VBool b => b
  | VInt n | VUint n => negb (n =? 0)
  | VFloat f => negb (PrimFloat.eqb f 0%float)
  | VStr s | VRaw s => negb (String.eqb s EmptyString)
  | VSlice xs | VArray xs => negb (bool_decide (length xs = 0%nat))
  | _ => true
  end.

(** Modelled from the spec: the number that an operand of arithmetic
    stands for. *)
Definition interfaceToNumeric (v : Value) : Num :=
  match v with
  | VInt n => NInt n
  | VUint n => NUint n
  | VFloat f => NFloat f
  | _ => default (NInt 0) (ParseNumber host (interfaceToString v))
  end.

(** Modelled from the spec: [alignTypesForArithmetic] promotes its two
    operands to a common numeric kind along int < uint < float; an operand
    that is no number is stringified and parsed, and a failure gives
    zero. *)
Definition alignTypesForArithmetic (a b : Value) : Num * Num :=
  match interfaceToNumeric a, interfaceToNumeric b with
  | NInt x, NInt y => (NInt x, NInt y)
  | NInt x, NUint y => (NUint (uint_wrap x), NUint y)
  | NUint x, NInt y => (NUint x, NUint (uint_wrap y))
  | NUint x, NUint y => (NUint x, NUint y)
  | NInt x, NFloat y => (NFloat (float64_of_Z x), NFloat y)
  | NUint x, NFloat y => (NFloat (float64_of_Z x), NFloat y)
  | NFloat x, NInt y => (NFloat x, NFloat (float64_of_Z y))
  | NFloat x, NUint y => (NFloat x, NFloat (float64_of_Z y))
  | NFloat x, NFloat y => (NFloat x, NFloat y)
  end.

(** [reflect.Value.Int], [Uint] and [Float] panic on another kind;
    [Convert] to [float64] takes any number. *)
Definition Num_Int (x : Num) : Result Z :=
  match x with NInt n => Ok n | _ => Panic "reflect: call of reflect.Value.Int" end.
Definition Num_Uint (x : Num) : Result Z :=
  match x with NUint n => Ok n | _ => Panic "reflect: call of reflect.Value.Uint" end.
Definition Num_Float (x : Num) : Result float :=
  match x with NFloat f => Ok f | _ => Panic "reflect: call of reflect.Value.Float" end.
Definition Convert_float (x : Num) : float :=
  match x with
  | NInt n | NUint n => float64_of_Z n
  | NFloat f => f
  end.

(** The method [String] that the VM declares on [rawString]. *)
Definition rawString_String : Method :=
  {| NumIn := 1; NumOut := 1;
     Call := fun args =>
       match args with
       | [VRaw s] => Ok [VStr s]
       | _ => Panic "reflect: Call with wrong arguments"
       end |}.

(** [reflect.Type.MethodByName]. *)
Definition MethodByName (t : GoType) (name : string) : option Method :=
  match t with
  | rawStringType =>
      if String.eqb name "String" then Some rawString_String else None
  | _ => host_methods host t name
  end.

(** [reflect.Value.Call]: a zero [reflect.Value] among the arguments (a
    nil on the stack) makes it panic. *)
Definition reflect_Call (m : Method) (args : list Value) : Result (list Value) :=
  if forallb (fun a => match a with Nil => false | _ => true end) args
  then Call m args
  else Panic "reflect: Call using zero Value argument".

(** *** The handlers *)

Definition txEnd (st : State) : Result State := Ok st.

Definition txNil (st : State) : Result State :=
  Ok (Advance (set_sa st Nil)).

Definition txNoop (st : State) : Result State :=
  Ok (Advance st).

Definition txMoveToSb (st : State) : Result State :=
  Ok (Advance (set_sb st (sa st))).

Definition txMoveFromSb (st : State) : Result State :=
  Ok (Advance (set_sa st (sb st))).

Definition txLiteral (st : State) : Result State :=
  let! op := CurrentOp st in
  Ok (Advance (set_sa st (Arg op))).

Definition txFetchSymbol (st : State) : Result State :=
  let! op := CurrentOp st in
  let key := Arg op in
  match Vars_Get (vars st) key with
  | Some v => Ok (Advance (set_sa st v))
  | None => Ok (Advance (set_sa st Nil))
  end.

(** [r, size := utf8.DecodeRuneInString(name)] and then
    [string(unicode.ToUpper(r)) + name[size:]]. *)
Definition upper_first (name : string) : string :=
  let '(r, size) := DecodeRuneInString host name in
  string_of_rune host (ToUpper host r)
  +:+ String.substring size (String.length name - size) name.

Definition txFetchField (st : State) : Result State :=
  let container := sa st in
  match container with
  | Nil => Ok (Advance (set_sa st Nil))
  | _ =>
      let! op := CurrentOp st in
      let! name := ArgString op in
      let name := upper_first name in
      let! f :=
        match Kind_of container with
        | KPtr | KStruct => reflect_FieldByName container name
        | _ => Panic "reflect: call of reflect.Value.FieldByName on interface Value"
        end in
      let! x := Field_Interface f in
      Ok (Advance (set_sa st x))
  end.

Definition txMarkRaw (st : State) : Result State :=
  let! t := Type_of (sa st) in
  if negb (is_rawStringType t)
  then Ok (Advance (set_sa st (VRaw (interfaceToString (sa st)))))
  else Ok (Advance st).

Definition txUnmarkRaw (st : State) : Result State :=
  let! t := Type_of (sa st) in
  if is_rawStringType t
  then Ok (Advance (set_sa st (VStr (interfaceToString (sa st)))))
  else Ok (Advance st).

Definition txPrint (st : State) : Result State :=
  let arg := sa st in
  match arg with
  | Nil => Ok (Advance (Warnf st ("Use of nil to print" +:+ newline)))
  | _ =>
      let! t := Type_of (sa st) in
      if negb (is_rawStringType t)
      then Ok (Advance (AppendOutputString st (html_EscapeString (interfaceToString arg))))
      else Ok (Advance (AppendOutputString st (interfaceToString arg)))
  end.

Definition txPrintRaw (st : State) : Result State :=
  let arg := sa st in
  match arg with
  | Nil => Ok (Advance (Warnf st ("Use of nil to print" +:+ newline)))
  | _ => Ok (Advance (AppendOutputString st (interfaceToString arg)))
  end.

Definition txSaveToLvar (st : State) : Result State :=
  let! op := CurrentOp st in
  let! idx := ArgInt op in
  let! cf := CurrentFrame st in
  let! cf := Frame.SetLvar cf idx (sa st) in
  Ok (Advance (with_frame st cf)).

Definition txLoadLvar (st : State) : Result State :=
  let! op := CurrentOp st in
  let! idx := ArgInt op in
  let! cf := CurrentFrame st in
  Ok (Advance (set_sa st (Frame.GetLvar cf idx))).

Definition txAdd (st : State) : Result State :=
  let '(leftV, rightV) := alignTypesForArithmetic (sb st) (sa st) in
  match leftV with
  | NInt l => let! r := Num_Int rightV in
              Ok (Advance (set_sa st (VInt (int_wrap (l + r)))))
  | NUint l => let! r := Num_Uint rightV in
               Ok (Advance (set_sa st (VUint (uint_wrap (l + r)))))
  | NFloat l => let! r := Num_Float rightV in
                Ok (Advance (set_sa st (VFloat (l + r)%float)))
  end.

Definition txSub (st : State) : Result State :=
  let '(leftV, rightV) := alignTypesForArithmetic (sb st) (sa st) in
  match leftV with
  | NInt l => let! r := Num_Int rightV in
              Ok (Advance (set_sa st (VInt (int_wrap (l - r)))))
  | NUint l => let! r := Num_Uint rightV in
               Ok (Advance (set_sa st (VUint (uint_wrap (l - r)))))
  | NFloat l => let! r := Num_Float rightV in
                Ok (Advance (set_sa st (VFloat (l - r)%float)))
  end.

Definition txMul (st : State) : Result State :=
  let '(leftV, rightV) := alignTypesForArithmetic (sb st) (sa st) in
  match leftV with
  | NInt l => let! r := Num_Int rightV in
              Ok (Advance (set_sa st (VInt (int_wrap (l * r)))))
  | NUint l => let! r := Num_Uint rightV in
               Ok (Advance (set_sa st (VUint (uint_wrap (l * r)))))
  | NFloat l => let! r := Num_Float rightV in
                Ok (Advance (set_sa st (VFloat (l * r)%float)))
  end.

(** Integers are converted to [float64] and divided as floats (a zero
    divisor gives an infinity or a NaN); Go's division of two [uint64]
    panics on a zero divisor. *)
Definition txDiv (st : State) : Result State :=
  let '(leftV, rightV) := alignTypesForArithmetic (sb st) (sa st) in
  match leftV with
  | NInt _ =>
      Ok (Advance (set_sa st (VFloat (Convert_float leftV / Convert_float rightV)%float)))
  | NUint l =>
      let! r := Num_Uint rightV in
      if r =? 0 then Panic "runtime error: integer divide by zero"
      else Ok (Advance (set_sa st (VUint (l / r))))
  | NFloat l =>
      let! r := Num_Float rightV in
      Ok (Advance (set_sa st (VFloat (l / r)%float)))
  end.

Definition txAnd (st : State) : Result State :=
  if interfaceToBool (sa st)
  then Ok (Advance st)
  else let! op := CurrentOp st in
       let! n := ArgInt op in
       Ok (AdvanceBy st n).

Definition txGoto (st : State) : Result State :=
  let! op := CurrentOp st in
  let! n := ArgInt op in
  Ok (AdvanceBy st n).

Definition txForStart (st : State) : Result State :=
  let! op := CurrentOp st in
  let! id := ArgInt op in
  let slice :=
    match Kind_of (sa st) with
    | KArray | KSlice => VReflect (sa st)
    | _ => VReflect (VSlice [])
    end in
  let! cf := CurrentFrame st in
  let! cf := Frame.SetLvar cf id Nil in
  let! cf := Frame.SetLvar cf (int_wrap (id + 1)) (VInt (-1)) in
  let! cf := Frame.SetLvar cf (int_wrap (id + 2)) slice in
  Ok (Advance (with_frame st cf)).

Definition txForIter (st : State) : Result State :=
  let! id := match sa st with
             | VInt n => Ok n
             | _ => Panic "interface conversion: not an int"
             end in
  let! cf := CurrentFrame st in
  let! index := match Frame.GetLvar cf (int_wrap (id + 1)) with
                | VInt n => Ok n
                | _ => Panic "interface conversion: not an int"
                end in
  let! slice := match Frame.GetLvar cf (int_wrap (id + 2)) with
                | VReflect v => Ok v
                | _ => Panic "interface conversion: not a reflect.Value"
                end in
  let index := int_wrap (index + 1) in
  let! cf := Frame.SetLvar cf (int_wrap (id + 1)) (VInt index) in
  let! xs := reflect_elems slice in
  if bool_decide (index < Z.of_nat (length xs))
  then let! x := reflect_Index xs index in
       let! cf := Frame.SetLvar cf id x in
       Ok (Advance (with_frame st cf))
  else let st := with_frame st cf in
       let! op := CurrentOp st in
       let! n := ArgInt op in
       Ok (AdvanceBy st n).

Definition txUriEscape (st : State) : Result State :=
  let v := interfaceToString (sa st) in
  Ok (Advance (set_sa st (VStr (escapeUriString v)))).

Definition txHtmlEscape (st : State) : Result State :=
  let v := interfaceToString (sa st) in
  Ok (Advance (set_sa st (VStr (html_EscapeString v)))).

Definition txEq (st : State) : Result State :=
  let! b := interface_eq host (sb st) (sa st) in
  Ok (Advance (set_sa st (VBool b))).

Definition txNe (st : State) : Result State :=
  let! b := interface_eq host (sb st) (sa st) in
  Ok (Advance (set_sa st (VBool (negb b)))).

Definition txPopmark (st : State) : Result State :=
  let! st := Popmark st in
  Ok (Advance st).

Definition txPushmark (st : State) : Result State :=
  Ok (Advance (Pushmark st)).

Definition txPush (st : State) : Result State :=
  let! s := Stack.Push (stack st) (sa st) in
  Ok (Advance (set_stack st s)).

(** The warning of [txMethodCall] on an arity mismatch. *)
Definition arity_warning (expected got : Z) : string :=
  "Number of arguments do not match (expected " +:+ pretty expected
  +:+ ", got " +:+ pretty got +:+ ")".

(** The argument list is every stack entry from the mark up to the tip;
    [make] panics on a negative length. *)
Definition txMethodCall (st : State) : Result State :=
  let! op := CurrentOp st in
  let name := interfaceToString (Arg op) in
  let! mark := CurrentMark st in
  let tip := Stack.Cur (stack st) in
  let invocant := Stack.Get (stack st) mark in
  let n := int_wrap (tip - mark) in
  if (n <? 0) || (tip <? mark) then Panic "runtime error: makeslice: len out of range"
  else
    let args := (fun i => Stack.Get (stack st) i) <$> seqZ mark n in
    let! t := Type_of invocant in
    match MethodByName t name with
    | None => Ok (Advance (set_sa st Nil))
    | Some method =>
        if negb (NumIn method =? Z.of_nat (length args))
        then Ok (Advance (set_sa
                   (Warnf st (arity_warning (NumIn method) (Z.of_nat (length args))))
                   Nil))
        else
          let! ret := reflect_Call method args in
          if NumOut method =? 0
          then Ok (Advance (set_sa st (VStr EmptyString)))
          else match ret with
               | r0 :: _ => Ok (Advance (set_sa st r0))
               | [] => Panic "runtime error: index out of range"
               end
    end.

(** The dispatch table that [init] fills. *)
Definition optypeToHandler (o : OpType) : State -> Result State :=
  match o with
  | TXOP_noop => txNoop
  | TXOP_end => txEnd
  | TXOP_move_to_sb => txMoveToSb
  | TXOP_move_from_sb => txMoveFromSb
  | TXOP_mark_raw => txMarkRaw
  | TXOP_unmark_raw => txUnmarkRaw
  | TXOP_print => txPrint
  | TXOP_print_raw => txPrintRaw
  | TXOP_literal => txLiteral
  | TXOP_fetch_s => txFetchSymbol
  | TXOP_fetch_field_s => txFetchField
  | TXOP_save_to_lvar => txSaveToLvar
  | TXOP_load_lvar => txLoadLvar
  | TXOP_nil => txNil
  | TXOP_add => txAdd
  | TXOP_sub => txSub
  | TXOP_mul => txMul
  | TXOP_div => txDiv
  | TXOP_and => txAnd
  | TXOP_goto => txGoto
  | TXOP_for_start => txForStart
  | TXOP_for_iter => txForIter
  | TXOP_html_escape => txHtmlEscape
  | TXOP_uri_escape => txUriEscape
  | TXOP_eq => txEq
  | TXOP_ne => txNe
  | TXOP_push => txPush
  | TXOP_popmark => txPopmark
  | TXOP_pushmark => txPushmark
  | TXOP_methodcall => txMethodCall
  end.

(** The opcodes that branch or halt. *)
Definition branches (o : OpType) : bool :=
  match o with
  | TXOP_goto | TXOP_and | TXOP_for_iter | TXOP_end => true
  | _ => false
  end.

End VM.

(** ** Sample states *)

Module Run.

(** A fresh state, as a render starts with: PC 0, one frame with mark 0,
    empty stacks and output. *)
Definition init (code : list Op) (vs : gmap string Value) : State :=
  mkState 0 Nil Nil Stack.New [] [mkFrameEntry EmptyString 0]
          EmptyString vs [] code.

Definition with_sa (v : Value) (code : list Op) : State :=
  set_sa (init code ∅) v.

Definition with_regs (b a : Value) (code : list Op) : State :=
  set_sb (set_sa (init code ∅) a) b.

(** The state in which [methodcall] finds the entries [args] pushed after
    a [pushmark] on the empty stack. *)
Definition at_call (args : list Value) (method : string) : State :=
  mkState 0 Nil Nil (Stack.mk args (Z.of_nat (length args))) [0]
          [mkFrameEntry EmptyString 0] EmptyString ∅ []
          [mkOp TXOP_methodcall (VStr method)].

(** [methodcall] of a method that the type [User] does not have, of
    [Name] with one argument too many, and of [Name] as it should be. *)
Definition call_missing : State := at_call [Sample.user "Ada"] "Nope".
Definition call_arity : State := at_call [Sample.user "Ada"; VInt 1] "Name".
Definition call_name : State := at_call [Sample.user "Ada"] "Name".

(** [methodcall] with nil at the mark: the variable was not there. *)
Definition call_on_nil : State := at_call [Nil] "Name".

(** [fetch_field_s] of a field that the record in SA does not have. *)
Definition fetch_zip : State :=
  with_sa (Sample.user "Ada") [mkOp TXOP_fetch_field_s (VStr "zip")].

(** [mark_raw] with nil in SA. *)
Definition mark_nil : State := init [mkOp TXOP_mark_raw Nil] ∅.

(** [for_start 0] with a slice of two integers in SA. *)
Definition loop_start : State :=
  with_sa (VSlice [VInt 1; VInt 2]) [mkOp TXOP_for_start (VInt 0)].

(** [div] with SB = 7 and SA = 2, and with SB = 3 and SA = 0, unsigned. *)
Definition div_7_2 : State := with_regs (VUint 7) (VUint 2) [mkOp TXOP_div Nil].
Definition div_3_0 : State := with_regs (VUint 3) (VUint 0) [mkOp TXOP_div Nil].

(** The output of a run that returned. *)
Definition output_of (r : Result State) : option string :=
  match r with
  | Ok st => Some (output st)
  | Panic _ => None
  end.

(** The operations [literal "<a&b>"; print; end], [literal "<b>"; mark_raw;
    print; end] and [pushmark; fetch_s "user"; push; methodcall "Name";
    print; popmark; end] of the specification's scenarios. *)
Definition escape_code : list Op :=
  [mkOp TXOP_literal (VStr "<a&b>"); mkOp TXOP_print Nil; mkOp TXOP_end Nil].

Definition raw_code : list Op :=
  [mkOp TXOP_literal (VStr "<b>"); mkOp TXOP_mark_raw Nil;
   mkOp TXOP_print Nil; mkOp TXOP_end Nil].

Definition call_code : list Op :=
  [mkOp TXOP_pushmark Nil; mkOp TXOP_fetch_s (VStr "user"); mkOp TXOP_push Nil;
   mkOp TXOP_methodcall (VStr "Name"); mkOp TXOP_print Nil;
   mkOp TXOP_popmark Nil; mkOp TXOP_end Nil].

(** A frame with mark 1 over a stack of four entries. *)
Definition frame1 : Frame.t :=
  Frame.SetMark
    (Frame.NewFrame (Stack.mk [VInt 10; VInt 11; VInt 12; VInt 13] 4)) 1.

End Run.

(** ** The names of the opcodes *)

(** The name that [init] stores in [opnames] for each opcode. *)
Definition opname (o : OpType) : string :=
  match o with
  | TXOP_noop => "noop"
  | TXOP_end => "end"
  | TXOP_move_to_sb => "move_to_sb"
  | TXOP_move_from_sb => "move_from_sb"
  | TXOP_mark_raw => "mark_raw"
  | TXOP_unmark_raw => "unmark_raw"
  | TXOP_print => "print"
  | TXOP_print_raw => "print_raw"
  | TXOP_literal => "literal"
  | TXOP_fetch_s => "fetch_s"
  | TXOP_fetch_field_s => "fetch_field_s"
  | TXOP_save_to_lvar => "save_to_lvar"
  | TXOP_load_lvar => "load_lvar"
  | TXOP_nil => "nil"
  | TXOP_add => "add"
  | TXOP_sub => "sub"
  | TXOP_mul => "mul"
  | TXOP_div => "div"
  | TXOP_and => "and"
  | TXOP_goto => "goto"
  | TXOP_for_start => "for_start"
  | TXOP_for_iter => "for_iter"
  | TXOP_html_escape => "html_escape"
  | TXOP_uri_escape => "uri_escape"
  | TXOP_eq => "eq"
  | TXOP_ne => "ne"
  | TXOP_push => "push"
  | TXOP_popmark => "popmark"
  | TXOP_pushmark => "pushmark"
  | TXOP_methodcall => "methodcall"
  end.

(** ** More sample states *)

Module Demo.

(** [fetch_field_s "age"] with a pointer to a [User] in SA. *)
Definition fetch_through_pointer : State :=
  Run.with_sa (VPtr (Sample.user "Ada")) [mkOp TXOP_fetch_field_s (VStr "age")].

(** [methodcall "Touch"] of the method without a result. *)
Definition call_touch : State := Run.at_call [Sample.user "Ada"] "Touch".

(** [pushmark; push; methodcall "Name"] with a [User] in SA. *)
Definition protocol : State :=
  Run.with_sa (Sample.user "Ada")
    [mkOp TXOP_pushmark Nil; mkOp TXOP_push Nil;
     mkOp TXOP_methodcall (VStr "Name")].


(** [save_to_lvar 3; load_lvar 3] with a string in SA. *)
Definition save_load : State :=
  Run.with_sa (VStr "kept")
    [mkOp TXOP_save_to_lvar (VInt 3); mkOp TXOP_load_lvar (VInt 3)].

(** [fetch_s "missing"; print] with no variables. *)
Definition print_missing : State :=
  Run.init [mkOp TXOP_fetch_s (VStr "missing"); mkOp TXOP_print Nil] ∅.

(** [add] near the top of the [int64] range. *)
Definition add_overflow : State :=
  Run.with_regs (VInt (2 ^ 63 - 1)) (VInt 5) [mkOp TXOP_add Nil].

End Demo.

(** The argument list of [txMethodCall]: the entries from the mark [m] up
    to the tip. *)
Definition call_args (st : State) (m : Z) : list Value :=
  (fun i => Stack.Get (stack st) i) <$> seqZ m (Stack.Cur (stack st) - m).

(** ** The cached bytecode loader with cache entities

    The revision of the loader that caches a [CacheEntity], the bytecode
    together with the template source it was compiled from. *)

Module Loader.

(** Go's [error] values, as far as the loader tells them apart:
    [ErrCacheMiss], and the errors of the collaborators. *)
Inductive error : Type :=
| ErrCacheMiss
| ErrOther (msg : string).

(** A cache entity, [CacheEntity{ByteCode, Source}]: a pointer to the
    bytecode and the template source, an interface value; either may be
    nil. *)
Record CacheEntity (BC Src : Type) : Type := mkEntity {
  ByteCode : option BC;
  Source : option Src
}.
Arguments mkEntity {BC Src} _ _.
Arguments ByteCode {BC Src} _.
Arguments Source {BC Src} _.

(** [MemoryCache], a Go map from keys to pointers to entities. *)
Definition MemoryCache (BC Src : Type) : Type :=
  gmap string (option (CacheEntity BC Src)).

(** [CacheStrategy], an integer type with the three constants that
    loader/cache.go declares by [iota]; the loader compares them as
    integers. *)
Inductive CacheStrategy : Type := CacheNone | CacheVerify | CacheNoVerify.

Definition strategy_code (s : CacheStrategy) : Z :=
  match s with
  | CacheNone => 0
  | CacheVerify => 1
  | CacheNoVerify => 2
  end.

(** What the loader works with: the time a bytecode was generated, the
    last-modified time and the reader of a template source, the fetcher, the
    compilation of what a reader delivers ([LoadReader]), and the [Get] and
    [Set] of the cache behind the memory cache.  A Go result pair is a pair
    of a value and an optional error; times are instants on the integer
    line. *)
Record World (BC Src Rdr Other : Type) : Type := mkWorld {
  GeneratedOn : BC -> Z;
  LastModified : Src -> Z * option error;
  Source_Reader : Src -> Rdr * option error;
  FetchTemplate : string -> option Src * option error;
  LoadReader : string -> Rdr -> option BC * option error;
  other_Get : Other -> string -> option (CacheEntity BC Src) * option error;
  other_Set : Other -> string -> option (CacheEntity BC Src) -> Other
}.
Arguments mkWorld {BC Src Rdr Other} _ _ _ _ _ _ _.
Arguments GeneratedOn {BC Src Rdr Other} _ _.
Arguments LastModified {BC Src Rdr Other} _ _.
Arguments Source_Reader {BC Src Rdr Other} _ _.
Arguments FetchTemplate {BC Src Rdr Other} _ _.
Arguments LoadReader {BC Src Rdr Other} _ _ _.
Arguments other_Get {BC Src Rdr Other} _ _ _.
Arguments other_Set {BC Src Rdr Other} _ _ _ _.

(** A value of the interface [Cache]: the memory cache, or another one. *)
Inductive Cache (BC Src Other : Type) : Type :=
| CMemory (m : MemoryCache BC Src)
| COther (c : Other).
Arguments CMemory {BC Src Other} m.
Arguments COther {BC Src Other} c.

(** The loader: its caches and its strategy (the fetcher and the two
    embedded loaders are in the [World]). *)
Record CachedByteCodeLoader (BC Src Other : Type) : Type := mkLoader {
  Caches : list (Cache BC Src Other);
  CacheLevel : CacheStrategy
}.
Arguments mkLoader {BC Src Other} _ _.
Arguments Caches {BC Src Other} _.
Arguments CacheLevel {BC Src Other} _.

Section Load.

Context {BC Src Rdr Other : Type}.
Variable w : World BC Src Rdr Other.

(** [MemoryCache.Get]: the entity under the key, or [ErrCacheMiss]. *)
Definition MemoryCache_Get (c : MemoryCache BC Src) (key : string)
  : option (CacheEntity BC Src) * option error :=
  match c !! key with
  | Some bc => (bc, None)
  | None => (None, Some ErrCacheMiss)
  end.

(** [MemoryCache.Set]: it stores and returns no error. *)
Definition MemoryCache_Set
    (c : MemoryCache BC Src) (key : string) (bc : option (CacheEntity BC Src))
  : MemoryCache BC Src * option error :=
  (<[key := bc]> c, None).

(** [MemoryCache.Delete]: it deletes and returns no error. *)
Definition MemoryCache_Delete (c : MemoryCache BC Src) (key : string)
  : MemoryCache BC Src * option error :=
  (delete key c, None).

(** The calls [cache.Get(key)] and [cache.Set(key, entity)] through the
    interface; [Load] ignores the error that [Set] returns. *)
Definition Cache_Get (c : Cache BC Src Other) (key : string)
  : option (CacheEntity BC Src) * option error :=
  match c with
  | CMemory m => MemoryCache_Get m key
  | COther o => other_Get w o key
  end.

Definition Cache_Set
    (c : Cache BC Src Other) (key : string) (e : option (CacheEntity BC Src))
  : Cache BC Src Other :=
  match c with
  | CMemory m => CMemory (fst (MemoryCache_Set m key e))
  | COther o => COther (other_Set w o key e)
  end.

(** [NewCachedByteCodeLoader]: an empty memory cache in front of the cache
    that is passed. *)
Definition NewCachedByteCodeLoader (cache : Other) (cacheLevel : CacheStrategy)
  : CachedByteCodeLoader BC Src Other :=
  mkLoader [CMemory ∅; COther cache] cacheLevel.

(** The loop of [Load] over the caches: [entity] and [err] are assigned by
    each [Get], and the first one without an error ends the loop. *)
Fixpoint lookup
    (caches : list (Cache BC Src Other)) (key : string)
    (entity : option (CacheEntity BC Src)) (err : option error)
  : option (CacheEntity BC Src) * option error :=
  match caches with
  | [] => (entity, err)
  | cache :: rest =>
      let '(entity, err) := Cache_Get cache key in
      match err with
      | None => (entity, err)
      | Some _ => lookup rest key entity err
      end
  end.

(** What [Load] returns: the pair of the bytecode and the error, and the
    caches as it leaves them. *)
Definition Loaded : Type :=
  (option BC * option error) * list (Cache BC Src Other).

(** The second half of [Load], from [if source == nil] on: fetch the
    template unless a cached source is reused, read and compile it, and
    store the new entity in every cache. *)
Definition compile
    (l : CachedByteCodeLoader BC Src Other) (key : string) (source : option Src)
  : Result Loaded :=
  let '(source, err) :=
    match source with
    | None => FetchTemplate w key
    | Some _ => (source, None)
    end in
  match err with
  | Some _ => Ok ((None, err), Caches l)
  | None =>
      match source with
      | None => Panic "runtime error: invalid memory address or nil pointer dereference"
      | Some src =>
          let '(rdr, err) := Source_Reader w src in
          match err with
          | Some _ => Ok ((None, err), Caches l)
          | None =>
              let '(bc, err) := LoadReader w key rdr in
              match err with
              | Some _ => Ok ((None, err), Caches l)
              | None =>
                  let entity := Some (mkEntity bc (Some src)) in
                  Ok ((bc, None),
                      (fun cache => Cache_Set cache key entity) <$> Caches l)
              end
          end
      end
  end.

(** [CachedByteCodeLoader.Load].  The deferred dump of the bytecode to the
    standard error stream writes nothing that the loader reads and is left
    out. *)
Definition Load (l : CachedByteCodeLoader BC Src Other) (key : string)
  : Result Loaded :=
  if strategy_code CacheNone <? strategy_code (CacheLevel l)
  then
    let '(entity, err) := lookup (Caches l) key None None in
    match err with
    | Some _ => compile l key None
    | None =>
        match entity with
        | None => Panic "runtime error: invalid memory address or nil pointer dereference"
        | Some e =>
            match CacheLevel l with
            | CacheNoVerify => Ok ((ByteCode e, None), Caches l)
            | _ =>
                match Source e with
                | None => Panic "runtime error: invalid memory address or nil pointer dereference"
                | Some src =>
                    let '(t, err) := LastModified w src in
                    match err with
                    | Some _ => Ok ((None, err), Caches l)
                    | None =>
                        match ByteCode e with
                        | None => Panic "runtime error: invalid memory address or nil pointer dereference"
                        | Some bc =>
                            if t <? GeneratedOn w bc
                            then Ok ((ByteCode e, None), Caches l)
                            else compile l key (Source e)
                        end
                    end
                end
            end
        end
    end
  else compile l key None.

End Load.

(** A sample world: a bytecode is the time it was generated, a source is its
    text and its last-modified time, a reader is the text; the fetcher knows
    the template [hello], the compiler stamps the time 100, and the cache
    behind the memory cache stores nothing. *)
Definition sample_world : World Z (string * Z)%type string unit :=
  mkWorld (fun bc => bc)
          (fun src => (snd src, None))
          (fun src => (fst src, None))
          (fun key => if String.eqb key "hello"
                      then (Some ("Hello!", 50), None)
                      else (None, Some (ErrOther "no such template")))
          (fun _ _ => (Some 100, None))
          (fun _ _ => (None, Some ErrCacheMiss))
          (fun o _ _ => o).

(** The entity that a load of [hello] stores, an entity generated before
    the source was last modified, a memory cache holding each, and a loader
    for each strategy. *)
Definition hello_entity : CacheEntity Z (string * Z) :=
  mkEntity (Some 100) (Some ("Hello!", 50)).

Definition stale_entity : CacheEntity Z (string * Z) :=
  mkEntity (Some 40) (Some ("Hello!", 50)).

Definition warm_cache : Cache Z (string * Z) unit :=
  CMemory (<["hello" := Some hello_entity]> ∅).

Definition stale_cache : Cache Z (string * Z) unit :=
  CMemory (<["hello" := Some stale_entity]> ∅).

Definition uncached_loader : CachedByteCodeLoader Z (string * Z) unit :=
  mkLoader [CMemory ∅; COther tt] CacheNone.

Definition noverify_loader : CachedByteCodeLoader Z (string * Z) unit :=
  mkLoader [COther tt; warm_cache] CacheNoVerify.

Definition verify_loader : CachedByteCodeLoader Z (string * Z) unit :=
  mkLoader [stale_cache] CacheVerify.

Definition cacheless_loader : CachedByteCodeLoader Z (string * Z) unit :=
  mkLoader [] CacheVerify.

End Loader.

(** ** The bytecode loader of loader/cache.go *)

Module CacheLoader.

Import Loader.

(** [MemoryCache], here a Go map from keys to pointers to bytecode. *)
Definition MemoryCache (BC : Type) : Type := gmap string (option BC).

(** What this loader works with: the time a bytecode was generated, the
    last-modified time and the bytes of a template source, the fetcher, the
    compilation of a string ([LoadString]), and the [Get] and [Set] of the
    cache behind the memory cache. *)
Record World (BC Src Other : Type) : Type := mkWorld {
  GeneratedOn : BC -> Z;
  LastModified : Src -> Z * option error;
  Bytes : Src -> string * option error;
  FetchTemplate : string -> option Src * option error;
  LoadString : string -> option BC * option error;
  other_Get : Other -> string -> option BC * option error;
  other_Set : Other -> string -> option BC -> Other
}.
Arguments mkWorld {BC Src Other} _ _ _ _ _ _ _.
Arguments GeneratedOn {BC Src Other} _ _.
Arguments LastModified {BC Src Other} _ _.
Arguments Bytes {BC Src Other} _ _.
Arguments FetchTemplate {BC Src Other} _ _.
Arguments LoadString {BC Src Other} _ _.
Arguments other_Get {BC Src Other} _ _ _.
Arguments other_Set {BC Src Other} _ _ _ _.

(** A value of the interface [Cache]. *)
Inductive Cache (BC Other : Type) : Type :=
| CMemory (m : MemoryCache BC)
| COther (c : Other).
Arguments CMemory {BC Other} m.
Arguments COther {BC Other} c.

(** The loader: its caches and its strategy. *)
Record CachedByteCodeLoader (BC Other : Type) : Type := mkLoader {
  Caches : list (Cache BC Other);
  CacheLevel : CacheStrategy
}.
Arguments mkLoader {BC Other} _ _.
Arguments Caches {BC Other} _.
Arguments CacheLevel {BC Other} _.

Section Load.

Context {BC Src Other : Type}.
Variable w : World BC Src Other.

(** [MemoryCache.Get], [Set] and [Delete]. *)
Definition MemoryCache_Get (c : MemoryCache BC) (key : string)
  : option BC * option error :=
  match c !! key with
  | Some bc => (bc, None)
  | None => (None, Some ErrCacheMiss)
  end.

Definition MemoryCache_Set (c : MemoryCache BC) (key : string) (bc : option BC)
  : MemoryCache BC * option error :=
  (<[key := bc]> c, None).

Definition MemoryCache_Delete (c : MemoryCache BC) (key : string)
  : MemoryCache BC * option error :=
  (delete key c, None).

(** [cache.Get(key)] and [cache.Set(key, bc)] through the interface. *)
Definition Cache_Get (c : Cache BC Other) (key : string)
  : option BC * option error :=
  match c with
  | CMemory m => MemoryCache_Get m key
  | COther o => other_Get w o key
  end.

Definition Cache_Set (c : Cache BC Other) (key : string) (bc : option BC)
  : Cache BC Other :=
  match c with
  | CMemory m => CMemory (fst (MemoryCache_Set m key bc))
  | COther o => COther (other_Set w o key bc)
  end.

(** [NewCachedByteCodeLoader]. *)
Definition NewCachedByteCodeLoader (cache : Other) (cacheLevel : CacheStrategy)
  : CachedByteCodeLoader BC Other :=
  mkLoader [CMemory ∅; COther cache] cacheLevel.

(** The loop over the caches: [bc] and [err] are assigned by each [Get],
    and the first one without an error ends the loop. *)
Fixpoint lookup
    (caches : list (Cache BC Other)) (key : string)
    (bc : option BC) (err : option error)
  : option BC * option error :=
  match caches with
  | [] => (bc, err)
  | cache :: rest =>
      let '(bc, err) := Cache_Get cache key in
      match err with
      | None => (bc, err)
      | Some _ => lookup rest key bc err
      end
  end.

Definition Loaded : Type := (option BC * option error) * list (Cache BC Other).

(** The second half of [Load], from [if source == nil] on, with the values
    that [source] and [err] have there. *)
Definition compile
    (l : CachedByteCodeLoader BC Other) (key : string)
    (source : option Src) (err : option error)
  : Result Loaded :=
  let '(source, err) :=
    match source with
    | None => FetchTemplate w key
    | Some _ => (source, err)
    end in
  match err with
  | Some _ => Ok ((None, err), Caches l)
  | None =>
      match source with
      | None => Panic "runtime error: invalid memory address or nil pointer dereference"
      | Some src =>
          let '(content, err) := Bytes w src in
          match err with
          | Some _ => Ok ((None, err), Caches l)
          | None =>
              let '(bc, err) := LoadString w content in
              match err with
              | Some _ => Ok ((None, err), Caches l)
              | None =>
                  Ok ((bc, None),
                      (fun cache => Cache_Set cache key bc) <$> Caches l)
              end
          end
      end
  end.

(** [CachedByteCodeLoader.Load]. *)
Definition Load (l : CachedByteCodeLoader BC Other) (key : string)
  : Result Loaded :=
  if strategy_code CacheNone <? strategy_code (CacheLevel l)
  then
    let '(bc, err) := lookup (Caches l) key None None in
    match err with
    | Some _ => compile l key None err
    | None =>
        match CacheLevel l with
        | CacheNoVerify => Ok ((bc, None), Caches l)
        | _ =>
            let '(source, err) := FetchTemplate w key in
            match err with
            | Some _ => Ok ((None, err), Caches l)
            | None =>
                match source with
                | None => Panic "runtime error: invalid memory address or nil pointer dereference"
                | Some src =>
                    let '(t, err') := LastModified w src in
                    match err' with
                    | Some _ => Ok ((None, err'), Caches l)
                    | None =>
                        match bc with
                        | None => Panic "runtime error: invalid memory address or nil pointer dereference"
                        | Some b =>
                            if t <? GeneratedOn w b
                            then Ok ((bc, None), Caches l)
                            else compile l key source err
                        end
                    end
                end
            end
        end
    end
  else compile l key None None.

End Load.

(** A sample world: a bytecode is the time it was generated, a source is its
    text and its last-modified time; the fetcher knows no template. *)
Definition offline_world : World Z (string * Z) unit :=
  mkWorld (fun bc => bc)
          (fun src => (snd src, None))
          (fun src => (fst src, None))
          (fun _ => (None, Some (ErrOther "no such template")))
          (fun _ => (Some 100, None))
          (fun _ _ => (None, Some ErrCacheMiss))
          (fun o _ _ => o).

(** The same with a fetcher that knows every template, last modified at
    time 50. *)
Definition online_world : World Z (string * Z) unit :=
  mkWorld (fun bc => bc)
          (fun src => (snd src, None))
          (fun src => (fst src, None))
          (fun key => (Some (key, 50), None))
          (fun _ => (Some 100, None))
          (fun _ _ => (None, Some ErrCacheMiss))
          (fun o _ _ => o).

(** A memory cache that holds a bytecode generated at time 40 for [hello],
    and loaders over it. *)
Definition warm_cache : Cache Z unit := CMemory (<["hello" := Some 40]> ∅).

Definition verify_loader : CachedByteCodeLoader Z unit :=
  mkLoader [warm_cache] CacheVerify.

Definition cacheless_loader : CachedByteCodeLoader Z unit :=
  mkLoader [] CacheNoVerify.

Definition uncached_loader : CachedByteCodeLoader Z unit :=
  mkLoader [CMemory ∅; COther tt] CacheNone.

End CacheLoader.

(** ** The syntax tree of the parser (parser/node.go) *)

Module Parser.

(** [NodeType], an integer type, and its constants, numbered by [iota]. *)
Definition NodeType : Type := Z.

Definition NodeNoop : NodeType := 0.
Definition NodeRoot : NodeType := 1.
Definition NodeText : NodeType := 2.
Definition NodeNumber : NodeType := 3.
Definition NodeInt : NodeType := 4.
Definition NodeFloat : NodeType := 5.
Definition NodeIf : NodeType := 6.
Definition NodeElse : NodeType := 7.
Definition NodeList : NodeType := 8.
Definition NodeForeach : NodeType := 9.
Definition NodeWrapper : NodeType := 10.
Definition NodeAssignment : NodeType := 11.
Definition NodeLocalVar : NodeType := 12.
Definition NodeFetchField : NodeType := 13.
Definition NodeMethodcall : NodeType := 14.
Definition NodePrint : NodeType := 15.
Definition NodePrintRaw : NodeType := 16.
Definition NodeFetchSymbol : NodeType := 17.

(** [NodeType.String]: the switch over the constants, with its default. *)
Definition NodeType_String (n : NodeType) : string :=
  if n =? NodeNoop then "Noop"
  else if n =? NodeRoot then "Root"
  else if n =? NodeText then "Text"
  else if n =? NodeNumber then "Number"
  else if n =? NodeInt then "Int"
  else if n =? NodeFloat then "Float"
  else if n =? NodeList then "List"
  else if n =? NodeForeach then "Foreach"
  else if n =? NodeWrapper then "Wrapper"
  else if n =? NodeAssignment then "Assignment"
  else if n =? NodeLocalVar then "LocalVar"
  else if n =? NodeFetchField then "FetchField"
  else if n =? NodeMethodcall then "Methodcall"
  else if n =? NodePrint then "Print"
  else if n =? NodePrintRaw then "PrintRaw"
  else if n =? NodeFetchSymbol then "FetchSymbol"
  else if n =? NodeIf then "If"
  else if n =? NodeElse then "Else"
  else "Unknown Node".

(** A value of the interface [Node]: nil, or a pointer to one of the node
    structs, given by the fields of the struct.  The structs that embed a
    [*ListNode] ([ForeachNode], [IfNode], [ElseNode]) carry the three
    fields of that list node, their node type among them.  The number of a
    [NumberNode] is the value that its [reflect.Value] holds. *)
Inductive Node : Type :=
| NilNode
| NoopNode (ty : NodeType) (pos : Z)
| ListNode (ty : NodeType) (pos : Z) (nodes : list Node)
| TextNode (ty : NodeType) (pos : Z) (text : string)
| NumberNode (ty : NodeType) (pos : Z) (value : Value)
| AssignmentNode (ty : NodeType) (pos : Z) (assignee : Node) (expression : Node)
| LocalVarNode (ty : NodeType) (pos : Z) (name : string) (offset : Z)
| ForeachNode (ty : NodeType) (pos : Z) (nodes : list Node)
              (indexVarName : string) (indexVarIdx : Z) (list : Node)
| FetchFieldNode (ty : NodeType) (pos : Z) (container : Node) (fieldName : string)
| IfNode (ty : NodeType) (pos : Z) (nodes : list Node) (booleanExpression : Node)
| ElseNode (ty : NodeType) (pos : Z) (nodes : list Node) (ifNode : Node).

(** [Type()], promoted from the embedded [NodeType]; a call on the nil
    interface panics. *)
Definition Type_ (n : Node) : Result NodeType :=
  match n with
  | NilNode => Panic "runtime error: invalid memory address or nil pointer dereference"
  | NoopNode ty _ | ListNode ty _ _ | TextNode ty _ _ | NumberNode ty _ _
  | AssignmentNode ty _ _ _ | LocalVarNode ty _ _ _ | ForeachNode ty _ _ _ _ _
  | FetchFieldNode ty _ _ _ | IfNode ty _ _ _ | ElseNode ty _ _ _ => Ok ty
  end.

(** The constructors. *)
Definition noop : Node := NoopNode NodeNoop 0.

Definition NewNoopNode : Node := noop.

Definition NewListNode (pos : Z) : Node := ListNode NodeList pos [].

Definition NewTextNode (pos : Z) (arg : string) : Node := TextNode NodeText pos arg.

Definition NewLocalVarNode (pos : Z) (symbol : string) (idx : Z) : Node :=
  LocalVarNode NodeLocalVar pos symbol idx.

(** [Append], of [ListNode] and of the structs that embed one; on another
    node there is no such method. *)
Definition Append (l : Node) (n : Node) : Node :=
  match l with
  | ListNode ty pos nodes => ListNode ty pos (nodes ++ [n])
  | ForeachNode ty pos nodes name idx lst =>
      ForeachNode ty pos (nodes ++ [n]) name idx lst
  | IfNode ty pos nodes e => IfNode ty pos (nodes ++ [n]) e
  | ElseNode ty pos nodes i => ElseNode ty pos (nodes ++ [n]) i
  | _ => l
  end.

Definition NewWrapperNode (pos : Z) (template : string) : Node :=
  Append (ListNode NodeWrapper pos []) (NewTextNode pos template).

Definition NewAssignmentNode (pos : Z) (symbol : string) : Node :=
  AssignmentNode NodeAssignment pos (NewLocalVarNode pos symbol 0) NilNode.

Definition NewForeachNode (pos : Z) (symbol : string) : Node :=
  ForeachNode NodeForeach pos [] symbol 0 NilNode.

Definition NewMethodcallNode (pos : Z) (invocant method : string) (args : Node)
  : Node :=
  Append (Append (Append (ListNode NodeMethodcall pos [])
                         (NewLocalVarNode pos invocant 0))
                 (NewTextNode pos method))
         args.

Definition NewFetchFieldNode (pos : Z) (container : Node) (field : string) : Node :=
  FetchFieldNode NodeFetchField pos container field.

Definition NewRootNode : Node := ListNode NodeRoot 0 [].

Definition NewNumberNode (pos : Z) (num : Value) : Node :=
  NumberNode NodeNumber pos num.

Definition NewIntNode (pos : Z) (v : Z) : Node := NumberNode NodeInt pos (VInt v).

Definition NewFloatNode (pos : Z) (v : float) : Node :=
  NumberNode NodeFloat pos (VFloat v).

Definition NewPrintNode (pos : Z) (arg : Node) : Node :=
  Append (ListNode NodePrint pos []) arg.

Definition NewPrintRawNode (pos : Z) : Node := ListNode NodePrintRaw pos [].

Definition NewFetchSymbolNode (pos : Z) (symbol : string) : Node :=
  TextNode NodeFetchSymbol pos symbol.

Definition NewIfNode (pos : Z) (exp : Node) : Node := IfNode NodeIf pos [] exp.

Definition NewElseNode (pos : Z) : Node := ElseNode NodeElse pos [] NilNode.

(** [Copy()].  [ListNode.Copy] goes through [NewListNode] and
    [TextNode.Copy] through [NewTextNode]; [NoopNode.Copy] returns the one
    [noop]; [ForeachNode.Copy] builds a copy and returns its receiver;
    [ElseNode] has the [Copy] of the list node it embeds.  A call on the nil
    interface panics. *)
Fixpoint Copy (n : Node) : Result Node :=
  match n with
  | NilNode => Panic "runtime error: invalid memory address or nil pointer dereference"
  | NoopNode _ _ => Ok noop
  | ListNode _ pos nodes => Ok (ListNode NodeList pos nodes)
  | TextNode _ pos text => Ok (NewTextNode pos text)
  | NumberNode ty pos value => Ok (NumberNode ty pos value)
  | AssignmentNode _ pos assignee expression =>
      Ok (AssignmentNode NodeAssignment pos assignee expression)
  | LocalVarNode _ pos name offset => Ok (NewLocalVarNode pos name offset)
  | ForeachNode _ _ _ _ _ lst =>
      let! _x := Copy lst in
      Ok n
  | FetchFieldNode _ pos container fieldName =>
      let! c := Copy container in
      Ok (FetchFieldNode NodeFetchField pos c fieldName)
  | IfNode _ pos nodes e =>
      let! e' := match e with
                 | NilNode => Ok NilNode
                 | _ => Copy e
                 end in
      Ok (IfNode NodeList pos nodes e')
  | ElseNode _ pos nodes _ => Ok (ListNode NodeList pos nodes)
  end.

(** [String()]. *)
Definition Node_String (n : Node) : Result string :=
  match n with
  | NilNode => Panic "runtime error: invalid memory address or nil pointer dereference"
  | NoopNode _ _ => Ok "noop"
  | TextNode ty _ text => Ok (NodeType_String ty +:+ " " +:+ text)
  | LocalVarNode ty _ name offset =>
      Ok (NodeType_String ty +:+ " " +:+ name +:+ " (" +:+ pretty offset +:+ ")")
  | ForeachNode ty _ _ name idx _ =>
      Ok (NodeType_String ty +:+ " " +:+ name +:+ " (" +:+ pretty idx +:+ ")")
  | ListNode ty _ _ | NumberNode ty _ _ | AssignmentNode ty _ _ _
  | FetchFieldNode ty _ _ _ | IfNode ty _ _ _ | ElseNode ty _ _ _ =>
      Ok (NodeType_String ty)
  end.

(** The node types that the constructors give to each struct: a list node is
    built by [NewListNode], [NewRootNode], [NewWrapperNode],
    [NewMethodcallNode], [NewPrintNode] or [NewPrintRawNode], a text node by
    [NewTextNode] or [NewFetchSymbolNode], a number node by [NewNumberNode],
    [NewIntNode] or [NewFloatNode], and so on. *)
Definition constructed (n : Node) : bool :=
  match n with
  | NilNode => false
  | NoopNode ty _ => ty =? NodeNoop
  | ListNode ty _ _ =>
      (ty =? NodeList) || (ty =? NodeRoot) || (ty =? NodeWrapper)
      || (ty =? NodeMethodcall) || (ty =? NodePrint) || (ty =? NodePrintRaw)
  | TextNode ty _ _ => (ty =? NodeText) || (ty =? NodeFetchSymbol)
  | NumberNode ty _ _ => (ty =? NodeNumber) || (ty =? NodeInt) || (ty =? NodeFloat)
  | AssignmentNode ty _ _ _ => ty =? NodeAssignment
  | LocalVarNode ty _ _ _ => ty =? NodeLocalVar
  | ForeachNode ty _ _ _ _ _ => ty =? NodeForeach
  | FetchFieldNode ty _ _ _ => ty =? NodeFetchField
  | IfNode ty _ _ _ => ty =? NodeIf
  | ElseNode ty _ _ _ => ty =? NodeElse
  end.

(** The eighteen constants, in the order of their declaration. *)
Definition node_types : list NodeType :=
  [NodeNoop; NodeRoot; NodeText; NodeNumber; NodeInt; NodeFloat; NodeIf;
   NodeElse; NodeList; NodeForeach; NodeWrapper; NodeAssignment; NodeLocalVar;
   NodeFetchField; NodeMethodcall; NodePrint; NodePrintRaw; NodeFetchSymbol].

(** The node types that only a constructor sets, after the struct was built
    with another type. *)
Definition overridden_types : list NodeType :=
  [NodeRoot; NodeWrapper; NodeMethodcall; NodePrint; NodePrintRaw;
   NodeFetchSymbol; NodeIf; NodeElse].

End Parser.

(** ** Machine integers and the stack: basic facts *)

Lemma int_wrap_small (z : Z) : - 2 ^ 63 <= z < 2 ^ 63 -> int_wrap z = z.
Proof.
  intros Hz. unfold int_wrap.
  rewrite Z.mod_small by lia. lia.
Qed.

Lemma write_lookup_eq (l : list Value) (n : nat) (v : Value) :
  Stack.write l n v !! n = Some v.
Proof.
  unfold Stack.write. apply list_lookup_insert_eq.
  rewrite length_app, length_replicate. lia.
Qed.

Lemma write_lookup_ne (l : list Value) (n m : nat) (v : Value) :
  n <> m -> default Nil (Stack.write l n v !! m) = default Nil (l !! m).
Proof.
  intros Hne. unfold Stack.write.
  rewrite list_lookup_insert_ne by exact Hne.
  destruct (decide (m < length l)%nat) as [Hlt | Hge].
  - now rewrite lookup_app_l.
  - rewrite lookup_app_r by lia.
    rewrite (lookup_ge_None_2 l m) by lia.
    destruct (replicate (S n - length l) Nil !! (m - length l)%nat) as [x |] eqn:E.
    + apply lookup_replicate_1 in E as [-> _]. reflexivity.
    + reflexivity.
Qed.

Lemma Stack_Set_ok (s : Stack.t) (i : Z) (v : Value) :
  0 <= i ->
  Stack.Set_ s i v = Ok (Stack.mk (Stack.write (Stack.data s) (Z.to_nat i) v) (Stack.cur s)).
Proof.
  intros Hi. unfold Stack.Set_. now rewrite bool_decide_true.
Qed.

Lemma Stack_Get_write_eq (l : list Value) (c : Z) (i : Z) (v : Value) :
  0 <= i -> Stack.Get (Stack.mk (Stack.write l (Z.to_nat i) v) c) i = v.
Proof.
  intros Hi. unfold Stack.Get. simpl.
  rewrite bool_decide_true by exact Hi.
  now rewrite write_lookup_eq.
Qed.

Lemma Stack_Get_write_ne (l : list Value) (c : Z) (i j : Z) (v : Value) :
  0 <= i -> i <> j ->
  Stack.Get (Stack.mk (Stack.write l (Z.to_nat i) v) c) j = Stack.Get (Stack.mk l c) j.
Proof.
  intros Hi Hne. unfold Stack.Get. simpl.
  destruct (bool_decide (0 <= j)) eqn:Hj; [| reflexivity].
  apply bool_decide_eq_true in Hj.
  apply write_lookup_ne. lia.
Qed.

(** ** Frames *)

(** Within the range of [int], a local variable is looked up at the index
    less the mark. *)
Lemma GetLvar_index (f : Frame.t) (i : Z) :
  - 2 ^ 63 <= i - Frame.mark f < 2 ^ 63 ->
  Frame.GetLvar f i = Stack.Get (Frame.stack f) (i - Frame.mark f).
Proof.
  intros Hr. unfold Frame.GetLvar. now rewrite int_wrap_small.
Qed.

(** With the mark at zero, as [NewFrame] leaves it, the index less the mark
    and the mark plus the index are the same slot. *)
Lemma GetLvar_mark_zero (s : Stack.t) (i : Z) :
  - 2 ^ 63 <= i < 2 ^ 63 ->
  Frame.GetLvar (Frame.NewFrame s) i
  = Stack.Get s (Frame.mark (Frame.NewFrame s) + i).
Proof.
  intros Hr. rewrite GetLvar_index; simpl; [f_equal; lia | lia].
Qed.

Lemma SetLvar_ok (f : Frame.t) (i : Z) (v : Value) :
  0 <= i - Frame.mark f < 2 ^ 63 ->
  Frame.SetLvar f i v
  = Ok (Frame.mk (Frame.name f)
          (Stack.mk (Stack.write (Stack.data (Frame.stack f))
                                 (Z.to_nat (i - Frame.mark f)) v)
                    (Stack.cur (Frame.stack f)))
          (Frame.mark f)).
Proof.
  intros Hr. unfold Frame.SetLvar.
  rewrite int_wrap_small by lia.
  now rewrite Stack_Set_ok by lia.
Qed.

(** C1 (the code at the failing input): on a frame with mark 1 over the
    stack 10, 11, 12, 13, [GetLvar(2)] returns the entry at absolute index
    2 - 1 = 1 and [SetLvar(2, v)] writes there, while the entry at absolute
    index mark + 2 = 3 is another one and is left as it was. *)
Lemma GetLvar_SetLvar_subtract_mark :
  Frame.GetLvar Run.frame1 2 = VInt 11
  /\ Stack.Get (Frame.stack Run.frame1) (Frame.mark Run.frame1 + 2) = VInt 13
  /\ Frame.SetLvar Run.frame1 2 (VStr "v")
     = Ok (Frame.mk EmptyString
             (Stack.mk [VInt 10; VStr "v"; VInt 12; VInt 13] 4) 1).
Proof. repeat split. Qed.

(** ** The handlers *)

(** The five-entity mapping on the example of the specification. *)
Example html_EscapeString_example :
  html_EscapeString "<a&b>" = "&lt;a&amp;b&gt;".
Proof. reflexivity. Qed.

(** Case analysis on a handler that returned: every bind, match and test
    on the way is split, and the branches that panic are discarded. *)
Ltac invert_ok :=
  repeat match goal with
  | H : Ok _ = Ok _ |- _ => injection H as H; subst
  | H : Panic _ = Ok _ |- _ => discriminate H
  | H : bind ?r _ = Ok _ |- _ =>
      let E := fresh "E" in destruct r eqn:E; simpl in H
  | H : (let '(_, _) := ?p in _) = Ok _ |- _ => destruct p eqn:?
  | H : (match ?x with _ => _ end) = Ok _ |- _ => destruct x eqn:?; simpl in H
  | H : (if ?b then _ else _) = Ok _ |- _ => destruct b eqn:?
  end.

Lemma Type_of_nonnil (v : Value) : v <> Nil -> Type_of v = Ok (TypeOf_nonnil v).
Proof. destruct v; [congruence | reflexivity ..]. Qed.

Lemma is_raw_TypeOf (v : Value) :
  is_rawStringType (TypeOf_nonnil v) = true <-> exists s, v = VRaw s.
Proof.
  split.
  - destruct v; simpl; try discriminate. eauto.
  - intros [s ->]. reflexivity.
Qed.

Section Properties.

Variable host : Host.

(** C2: [print] on nil appends nothing and records the warning; on a raw
    string it appends the string form unescaped; on any other value it
    appends the HTML-escaped string form.  In each case the handler
    returns, with PC advanced by one. *)
Theorem txPrint_spec (st : State) :
  exists st', txPrint host st = Ok st' /\ pc st' = pc st + 1 /\
    match sa st with
    | Nil =>
        output st' = output st
        /\ warn st' = warn st ++ ["Use of nil to print" +:+ newline]
    | VRaw s =>
        output st' = output st +:+ interfaceToString host (VRaw s)
        /\ warn st' = warn st
    | v =>
        output st' = output st +:+ html_EscapeString (interfaceToString host v)
        /\ warn st' = warn st
    end.
Proof.
  unfold txPrint.
  destruct (sa st) eqn:Hsa; simpl; eexists; (split; [reflexivity |]);
    simpl; auto.
Qed.

(** C5: on a value [v] that is not nil, [mark_raw] and then [unmark_raw]
    both return and leave in SA the plain string [interfaceToString v]; the
    final state is the first one with that string in SA and PC advanced
    twice. *)
Theorem mark_unmark_raw (st : State) :
  sa st <> Nil ->
  exists st1 st2,
    txMarkRaw host st = Ok st1 /\ txUnmarkRaw host st1 = Ok st2
    /\ sa st2 = VStr (interfaceToString host (sa st))
    /\ st2 = Advance (Advance (set_sa st (VStr (interfaceToString host (sa st))))).
Proof.
  intros Hnil. unfold txMarkRaw.
  rewrite (Type_of_nonnil _ Hnil). simpl.
  destruct (is_rawStringType (TypeOf_nonnil (sa st))) eqn:Hraw; simpl.
  - apply is_raw_TypeOf in Hraw as [s Hs].
    eexists; eexists; split; [reflexivity |].
    unfold txUnmarkRaw. simpl. rewrite Hs. simpl. auto.
  - eexists; eexists; split; [reflexivity |].
    unfold txUnmarkRaw. simpl. auto.
Qed.

(** C10: [mark_raw] and [unmark_raw] panic exactly when SA is nil, whereas
    [interfaceToString] takes nil to the empty string. *)
Theorem raw_marks_panic_on_nil (st : State) :
  ((exists m, txMarkRaw host st = Panic m) <-> sa st = Nil)
  /\ ((exists m, txUnmarkRaw host st = Panic m) <-> sa st = Nil)
  /\ interfaceToString host Nil = EmptyString.
Proof.
  unfold txMarkRaw, txUnmarkRaw.
  repeat split.
  - intros [m Hm]. destruct (sa st); simpl in Hm; try discriminate; reflexivity.
  - intros ->. simpl. eauto.
  - intros [m Hm]. destruct (sa st); simpl in Hm; try discriminate; reflexivity.
  - intros ->. simpl. eauto.
Qed.

(** C3 (as amended): when the entry at the mark is not nil, the mark is
    not above the tip, and the type of the invocant has no method of the
    name in the argument, [methodcall] returns with SA set to nil and PC
    advanced by one, and the warnings are as they were. *)
Theorem txMethodCall_missing_method (st : State) (op : Op) (m : Z) (t : GoType) :
  CurrentOp st = Ok op ->
  CurrentMark st = Ok m ->
  m <= Stack.Cur (stack st) < m + 2 ^ 63 ->
  Type_of (Stack.Get (stack st) m) = Ok t ->
  MethodByName host t (interfaceToString host (Arg op)) = None ->
  exists st', txMethodCall host st = Ok st'
    /\ sa st' = Nil /\ warn st' = warn st /\ pc st' = pc st + 1.
Proof.
  intros Hop Hmark Htip Hty Hnone. unfold txMethodCall.
  rewrite Hop. simpl. rewrite Hmark. simpl.
  rewrite int_wrap_small by lia.
  replace (Stack.Cur (stack st) - m <? 0) with false by (symmetry; apply Z.ltb_ge; lia).
  replace (Stack.Cur (stack st) <? m) with false by (symmetry; apply Z.ltb_ge; lia).
  simpl. rewrite Hty. simpl. rewrite Hnone.
  eexists. split; [reflexivity |]. simpl. auto.
Qed.

(** C4 (as amended): on a struct in SA that has no field of the requested
    name with its first rune upper-cased, [fetch_field_s] panics:
    [Interface()] is called on the zero [reflect.Value]. *)
Theorem txFetchField_missing_field
    (st : State) (ty : string) (fields : list (string * (bool * Value)))
    (op : Op) (name : string) :
  sa st = VStruct ty fields ->
  CurrentOp st = Ok op ->
  ArgString op = Ok name ->
  FieldByName fields (upper_first host name) = None ->
  txFetchField host st
  = Panic "reflect: call of reflect.Value.Interface on zero Value".
Proof.
  intros Hsa Hop Harg Hnone. unfold txFetchField.
  rewrite Hsa, Hop. simpl. rewrite Harg. simpl. rewrite Hnone. reflexivity.
Qed.

Lemma align_ints (a b : Z) :
  alignTypesForArithmetic host (VInt a) (VInt b) = (NInt a, NInt b).
Proof. reflexivity. Qed.

Lemma align_uints (a b : Z) :
  alignTypesForArithmetic host (VUint a) (VUint b) = (NUint a, NUint b).
Proof. reflexivity. Qed.

(** C8 (as amended): with two integers in SB and SA, [div] sets SA to the
    quotient of their conversions to [float64]; with two unsigned
    integers and a divisor that is not zero, it sets SA to the unsigned
    quotient; with two unsigned integers and a zero divisor it panics. *)
Theorem txDiv_spec (st : State) :
  (forall a b, sb st = VInt a -> sa st = VInt b ->
     txDiv host st
     = Ok (Advance (set_sa st (VFloat (float64_of_Z a / float64_of_Z b)%float))))
  /\ (forall a b, sb st = VUint a -> sa st = VUint b -> b <> 0 ->
        txDiv host st = Ok (Advance (set_sa st (VUint (a / b)))))
  /\ (forall a, sb st = VUint a -> sa st = VUint 0 ->
        txDiv host st = Panic "runtime error: integer divide by zero").
Proof.
  unfold txDiv. repeat split.
  - intros a b -> ->. now rewrite align_ints.
  - intros a b -> -> Hb. rewrite align_uints. simpl.
    apply Z.eqb_neq in Hb. now rewrite Hb.
  - intros a -> ->. now rewrite align_uints.
Qed.

(** C7: when the operation carries the integer [id] and the slots [id],
    [id + 1] and [id + 2] of the current frame are addressable,
    [for_start] returns; afterwards slot [id + 2] holds the reflection
    handle on SA when SA is an array or a slice and on an empty slice
    otherwise, slot [id] holds nil, slot [id + 1] holds -1, and PC has
    advanced by one. *)
Theorem txForStart_spec
    (st : State) (op : Op) (id : Z) (fe : FrameEntry) (rest : list FrameEntry) :
  CurrentOp st = Ok op ->
  ArgInt op = Ok id ->
  framestack st = fe :: rest ->
  0 <= id - fe_mark fe < 2 ^ 63 - 2 ->
  - 2 ^ 63 <= id < 2 ^ 63 - 2 ->
  exists st' cf,
    txForStart st = Ok st' /\ CurrentFrame st' = Ok cf
    /\ Frame.GetLvar cf (id + 2)
       = VReflect (if is_sequence (sa st) then sa st else VSlice [])
    /\ Frame.GetLvar cf id = Nil
    /\ Frame.GetLvar cf (id + 1) = VInt (-1)
    /\ pc st' = pc st + 1.
Proof.
  intros Hop Harg Hfs Hslot Hid. unfold txForStart.
  rewrite Hop. simpl. rewrite Harg. simpl.
  unfold CurrentFrame. rewrite Hfs. simpl.
  rewrite (int_wrap_small (id + 1)) by lia.
  rewrite (int_wrap_small (id + 2)) by lia.
  rewrite SetLvar_ok by (simpl; lia). simpl.
  rewrite SetLvar_ok by (simpl; lia). simpl.
  rewrite SetLvar_ok by (simpl; lia). simpl.
  eexists. eexists. split; [reflexivity |]. simpl.
  rewrite Hfs. split; [reflexivity |].
  rewrite !GetLvar_index by (simpl; lia). simpl.
  repeat split.
  - rewrite Stack_Get_write_eq by lia.
    unfold is_sequence. now destruct (Kind_of (sa st)).
  - rewrite !Stack_Get_write_ne by lia.
    now rewrite Stack_Get_write_eq by lia.
  - rewrite Stack_Get_write_ne by lia.
    now rewrite Stack_Get_write_eq by lia.
Qed.

(** C9 (as amended): whenever [methodcall] returns, the operand stack, the
    mark stack, the frame stack, SB, the output, the variables and the
    bytecode are as they were and PC has advanced by one; besides SA, the
    only thing written is the warning sink, to which at most one warning
    is appended. *)
Theorem txMethodCall_frame (st st' : State) :
  txMethodCall host st = Ok st' ->
  stack st' = stack st /\ markstack st' = markstack st
  /\ framestack st' = framestack st /\ sb st' = sb st
  /\ output st' = output st /\ vars st' = vars st
  /\ bytecode st' = bytecode st /\ pc st' = pc st + 1
  /\ (warn st' = warn st \/ exists w, warn st' = warn st ++ [w]).
Proof.
  intros H. unfold txMethodCall in H. invert_ok; simpl; repeat split; eauto.
Qed.

Lemma Popmark_pc (st st' : State) : Popmark st = Ok st' -> pc st' = pc st.
Proof. unfold Popmark. intros H. invert_ok. reflexivity. Qed.

(** C6 (as amended): whenever the handler of an opcode other than [goto],
    [and], [for_iter] and [end] returns, PC has increased by exactly one;
    the handler of [end] returns the state it was given. *)
Theorem pc_after_handler (o : OpType) (st : State) :
  (forall st', branches o = false -> optypeToHandler host o st = Ok st' ->
               pc st' = pc st + 1)
  /\ optypeToHandler host TXOP_end st = Ok st.
Proof.
  split; [| reflexivity].
  intros st' Hb H. destruct o; try discriminate Hb; simpl in H.
  all: try (unfold txNoop, txNil, txMoveToSb, txMoveFromSb, txLiteral,
              txFetchSymbol, txFetchField, txMarkRaw, txUnmarkRaw, txPrint,
              txPrintRaw, txSaveToLvar, txLoadLvar, txAdd, txSub, txMul,
              txDiv, txForStart, txHtmlEscape, txUriEscape, txEq, txNe,
              txPush, txPushmark, txMethodCall in H;
            invert_ok; reflexivity).
  unfold txPopmark in H. invert_ok. simpl.
  now rewrite (Popmark_pc _ _ E).
Qed.

(** The two results of [alignTypesForArithmetic] are of one kind. *)
Lemma align_same_kind (a b : Value) :
  (exists x y, alignTypesForArithmetic host a b = (NInt x, NInt y))
  \/ (exists x y, alignTypesForArithmetic host a b = (NUint x, NUint y))
  \/ (exists x y, alignTypesForArithmetic host a b = (NFloat x, NFloat y)).
Proof.
  unfold alignTypesForArithmetic.
  destruct (interfaceToNumeric host a), (interfaceToNumeric host b); eauto 6.
Qed.

(** The handlers that touch neither the bytecode nor a stack slot, and
    inspect no type, return on every state. *)
Lemma handler_returns (o : OpType) (st : State) :
  In o [TXOP_noop; TXOP_nil; TXOP_move_to_sb; TXOP_move_from_sb;
        TXOP_print; TXOP_print_raw; TXOP_html_escape; TXOP_uri_escape;
        TXOP_add; TXOP_sub; TXOP_mul; TXOP_pushmark] ->
  exists st', optypeToHandler host o st = Ok st'.
Proof.
  simpl. intros H.
  repeat (destruct H as [<- | H]); try contradiction; simpl; eauto.
  - unfold txPrint. destruct (sa st); simpl; eauto.
  - unfold txPrintRaw. destruct (sa st); eauto.
  - unfold txAdd.
    destruct (align_same_kind (sb st) (sa st)) as [(x & y & ->) | [(x & y & ->) | (x & y & ->)]];
      simpl; eauto.
  - unfold txSub.
    destruct (align_same_kind (sb st) (sa st)) as [(x & y & ->) | [(x & y & ->) | (x & y & ->)]];
      simpl; eauto.
  - unfold txMul.
    destruct (align_same_kind (sb st) (sa st)) as [(x & y & ->) | [(x & y & ->) | (x & y & ->)]];
      simpl; eauto.
Qed.

End Properties.

(** ** Concrete runs *)

(** The scenarios of the specification that need no float formatting, one
    handler after the other. *)
Example scenario_html_escaping :
  Run.output_of
    (let! st := txLiteral (Run.init Run.escape_code ∅) in
     let! st := txPrint Sample.host st in
     txEnd st)
  = Some "&lt;a&amp;b&gt;".
Proof. reflexivity. Qed.

Example scenario_raw_bypass :
  Run.output_of
    (let! st := txLiteral (Run.init Run.raw_code ∅) in
     let! st := txMarkRaw Sample.host st in
     let! st := txPrint Sample.host st in
     txEnd st)
  = Some "<b>".
Proof. reflexivity. Qed.

Example scenario_method_call :
  Run.output_of
    (let! st := txPushmark
                  (Run.init Run.call_code {[ "user" := Sample.user "Ada<>" ]}) in
     let! st := txFetchSymbol st in
     let! st := txPush st in
     let! st := txMethodCall Sample.host st in
     let! st := txPrint Sample.host st in
     let! st := txPopmark st in
     txEnd st)
  = Some "Ada&lt;&gt;".
Proof. vm_compute. reflexivity. Qed.

(** C3 (counterexample): the type [User] has no method [Nope]; [methodcall]
    sets SA to nil and advances, and the warning sink is as empty afterwards
    as it was before: no warning is recorded. *)
Lemma missing_method_records_no_warning :
  MethodByName Sample.host (TNamed "User") "Nope" = None
  /\ txMethodCall Sample.host Run.call_missing
     = Ok (Advance (set_sa Run.call_missing Nil))
  /\ warn Run.call_missing = []
  /\ warn (Advance (set_sa Run.call_missing Nil)) = [].
Proof. repeat split. Qed.

Lemma txMethodCall_missing_method_witness :
  exists st', txMethodCall Sample.host Run.call_missing = Ok st'
    /\ sa st' = Nil /\ warn st' = warn Run.call_missing
    /\ pc st' = pc Run.call_missing + 1.
Proof.
  apply (txMethodCall_missing_method Sample.host Run.call_missing
           (mkOp TXOP_methodcall (VStr "Nope")) 0 (TNamed "User")).
  - reflexivity.
  - reflexivity.
  - simpl. lia.
  - reflexivity.
  - reflexivity.
Defined.

(** C4 (counterexample): the record has the fields [name] and [Age] and
    none called [Zip]; [fetch_field_s "zip"] panics instead of warning and
    setting SA to nil. *)
Lemma missing_field_panics :
  FieldByName [("name", (false, VStr "Ada")); ("Age", (true, VInt 36))] "Zip" = None
  /\ sa Run.fetch_zip
     = VStruct "User" [("name", (false, VStr "Ada")); ("Age", (true, VInt 36))]
  /\ txFetchField Sample.host Run.fetch_zip
     = Panic "reflect: call of reflect.Value.Interface on zero Value".
Proof. repeat split. Qed.

Lemma txFetchField_missing_field_witness :
  txFetchField Sample.host Run.fetch_zip
  = Panic "reflect: call of reflect.Value.Interface on zero Value".
Proof.
  apply (txFetchField_missing_field Sample.host Run.fetch_zip "User"
           [("name", (false, VStr "Ada")); ("Age", (true, VInt 36))]
           (mkOp TXOP_fetch_field_s (VStr "zip")) "zip");
    reflexivity.
Defined.

Lemma mark_unmark_raw_witness :
  sa (Run.with_sa (VInt 42) []) <> Nil
  /\ exists st1 st2,
       txMarkRaw Sample.host (Run.with_sa (VInt 42) []) = Ok st1
       /\ txUnmarkRaw Sample.host st1 = Ok st2
       /\ sa st2 = VStr "42"
       /\ st2 = Advance (Advance (set_sa (Run.with_sa (VInt 42) []) (VStr "42"))).
Proof.
  split; [discriminate |].
  apply (mark_unmark_raw Sample.host (Run.with_sa (VInt 42) [])).
  discriminate.
Defined.

(** C6 (counterexample): [mark_raw] is none of [goto], [and], [for_iter]
    and [end], and on a state with nil in SA its handler panics: no state
    with PC increased by one results. *)
Lemma mark_raw_on_nil_does_not_advance :
  branches TXOP_mark_raw = false
  /\ sa Run.mark_nil = Nil
  /\ optypeToHandler Sample.host TXOP_mark_raw Run.mark_nil
     = Panic "reflect: call of reflect.Value.Type on zero Value".
Proof. repeat split. Qed.

Lemma pc_after_handler_witness :
  branches TXOP_nil = false
  /\ optypeToHandler Sample.host TXOP_nil Run.mark_nil
     = Ok (Advance (set_sa Run.mark_nil Nil))
  /\ pc (Advance (set_sa Run.mark_nil Nil)) = pc Run.mark_nil + 1.
Proof.
  split; [reflexivity |]. split; [reflexivity |].
  apply (proj1 (pc_after_handler Sample.host TXOP_nil Run.mark_nil));
    reflexivity.
Defined.

Lemma txForStart_spec_witness :
  exists st' cf,
    txForStart Run.loop_start = Ok st' /\ CurrentFrame st' = Ok cf
    /\ Frame.GetLvar cf (0 + 2) = VReflect (VSlice [VInt 1; VInt 2])
    /\ Frame.GetLvar cf 0 = Nil
    /\ Frame.GetLvar cf (0 + 1) = VInt (-1)
    /\ pc st' = pc Run.loop_start + 1.
Proof.
  apply (txForStart_spec Run.loop_start (mkOp TXOP_for_start (VInt 0)) 0
           (mkFrameEntry EmptyString 0) []).
  - reflexivity.
  - reflexivity.
  - reflexivity.
  - simpl. lia.
  - lia.
Defined.

(** C8 (counterexample): with the unsigned operands 3 in SB and 0 in SA,
    [div] panics; SA is not set to an unsigned quotient. *)
Lemma unsigned_div_by_zero_panics :
  sb Run.div_3_0 = VUint 3 /\ sa Run.div_3_0 = VUint 0
  /\ txDiv Sample.host Run.div_3_0 = Panic "runtime error: integer divide by zero".
Proof. repeat split. Qed.

Lemma txDiv_spec_witness :
  txDiv Sample.host Run.div_7_2 = Ok (Advance (set_sa Run.div_7_2 (VUint (7 / 2)))).
Proof.
  apply (proj1 (proj2 (txDiv_spec Sample.host Run.div_7_2)) 7 2).
  - reflexivity.
  - reflexivity.
  - discriminate.
Defined.

(** C9 (counterexample): [Name] takes its receiver only, and two entries
    lie between the mark and the tip; [methodcall] returns, and besides SA
    and PC it has written the warning sink.  With nil at the mark it does
    not return at all. *)
Lemma methodcall_writes_warning :
  txMethodCall Sample.host Run.call_arity
  = Ok (Advance (set_sa (Warnf Run.call_arity (arity_warning 1 2)) Nil))
  /\ warn Run.call_arity = []
  /\ warn (Advance (set_sa (Warnf Run.call_arity (arity_warning 1 2)) Nil))
     = ["Number of arguments do not match (expected 1, got 2)"]
  /\ txMethodCall Sample.host Run.call_on_nil
     = Panic "reflect: call of reflect.Value.Type on zero Value".
Proof. repeat split. Qed.

Lemma txMethodCall_frame_witness :
  txMethodCall Sample.host Run.call_name
  = Ok (Advance (set_sa Run.call_name (VStr "Ada")))
  /\ stack (Advance (set_sa Run.call_name (VStr "Ada"))) = stack Run.call_name
  /\ markstack (Advance (set_sa Run.call_name (VStr "Ada"))) = markstack Run.call_name
  /\ pc (Advance (set_sa Run.call_name (VStr "Ada"))) = pc Run.call_name + 1.
Proof.
  split; [reflexivity |].
  pose proof (txMethodCall_frame Sample.host Run.call_name
                (Advance (set_sa Run.call_name (VStr "Ada"))) eq_refl) as H.
  repeat split; apply H.
Defined.

Lemma raw_marks_panic_on_nil_witness :
  (exists m, txMarkRaw Sample.host Run.mark_nil = Panic m)
  /\ (exists m, txUnmarkRaw Sample.host Run.mark_nil = Panic m).
Proof.
  split.
  - apply (proj1 (raw_marks_panic_on_nil Sample.host Run.mark_nil)). reflexivity.
  - apply (proj1 (proj2 (raw_marks_panic_on_nil Sample.host Run.mark_nil))). reflexivity.
Defined.

(** ** More about the handlers *)

Lemma length_args (s : Stack.t) (m n : Z) :
  0 <= n ->
  Z.of_nat (length ((fun i => Stack.Get s i) <$> seqZ m n)) = n.
Proof. intros Hn. rewrite length_fmap, length_seqZ. lia. Qed.

Lemma ltb_false (a b : Z) : b <= a -> (a <? b) = false.
Proof. intros H. apply Z.ltb_ge. exact H. Qed.

Lemma CurrentOp_at (st : State) (n : Z) (op : Op) :
  0 <= n -> bytecode st !! Z.to_nat n = Some op -> pc st = n ->
  CurrentOp st = Ok op.
Proof.
  intros Hn Hop Hpc. unfold CurrentOp. rewrite Hpc.
  rewrite bool_decide_true by exact Hn. now rewrite Hop.
Qed.

Lemma Stack_Push_ok (s : Stack.t) (v : Value) :
  0 <= Stack.Cur s ->
  Stack.Push s v
  = Ok (Stack.mk (Stack.write (Stack.data s) (Z.to_nat (Stack.cur s)) v)
                 (Stack.cur s + 1)).
Proof.
  intros Hc. unfold Stack.Push. now rewrite Stack_Set_ok by exact Hc.
Qed.

Section MoreHandlers.

Variable host : Host.

(** X1: [fetch_field_s] returns in two cases only: SA is nil, and stays
    nil; or SA is a struct with an exported field of the upper-cased name,
    and becomes the value of that field.  On every other value it
    panics. *)
Theorem txFetchField_returns_iff (st st' : State) :
  txFetchField host st = Ok st' <->
  (sa st = Nil /\ st' = Advance (set_sa st Nil))
  \/ (exists op name ty fields v,
        CurrentOp st = Ok op /\ ArgString op = Ok name
        /\ sa st = VStruct ty fields
        /\ FieldByName fields (upper_first host name) = Some (true, v)
        /\ st' = Advance (set_sa st v)).
Proof.
  unfold txFetchField. split.
  - intros H. destruct (sa st) eqn:Hsa; simpl in H;
      try (left; split; [reflexivity | congruence]);
      try (destruct (CurrentOp st); simpl in H; [| discriminate];
           destruct (ArgString a); simpl in H; discriminate).
    + right.
      destruct (CurrentOp st) as [op |] eqn:Hop; simpl in H; [| discriminate].
      destruct (ArgString op) as [name |] eqn:Hname; simpl in H; [| discriminate].
      destruct (FieldByName fields (upper_first host name)) as [[[|] v] |] eqn:Hf;
        simpl in H; try discriminate.
      exists op, name, ty, fields, v. repeat split; congruence.
  - intros [[Hsa ->] | (op & name & ty & fields & v & Hop & Hname & Hsa & Hf & ->)].
    + now rewrite Hsa.
    + rewrite Hsa, Hop. simpl. rewrite Hname. simpl. now rewrite Hf.
Qed.

(** X2: with a pointer in SA, [fetch_field_s] panics, whatever the pointer
    points to: the kind switch lets pointers through, and [FieldByName]
    takes structs only. *)
Theorem txFetchField_pointer_panics (st : State) (v : Value) :
  sa st = VPtr v -> exists m, txFetchField host st = Panic m.
Proof.
  intros Hsa. unfold txFetchField. rewrite Hsa.
  destruct (CurrentOp st) as [op |]; simpl; [| eauto].
  destruct (ArgString op); simpl; eauto.
Qed.

(** X3: when the method exists and the number of inputs of its function
    (receiver included) differs from the number of stack entries from the
    mark to the tip, [methodcall] calls nothing: it records the warning with
    the two numbers, sets SA to nil and advances. *)
Theorem txMethodCall_arity_mismatch
    (st : State) (op : Op) (m : Z) (t : GoType) (method : Method) :
  CurrentOp st = Ok op ->
  CurrentMark st = Ok m ->
  m <= Stack.Cur (stack st) < m + 2 ^ 63 ->
  Type_of (Stack.Get (stack st) m) = Ok t ->
  MethodByName host t (interfaceToString host (Arg op)) = Some method ->
  NumIn method <> Stack.Cur (stack st) - m ->
  txMethodCall host st
  = Ok (Advance (set_sa
          (Warnf st (arity_warning (NumIn method) (Stack.Cur (stack st) - m)))
          Nil)).
Proof.
  intros Hop Hmark Htip Hty Hm Hne. unfold txMethodCall.
  rewrite Hop. simpl. rewrite Hmark. simpl.
  rewrite int_wrap_small by lia.
  rewrite !ltb_false by lia. simpl.
  rewrite Hty. simpl. rewrite Hm.
  rewrite length_args by lia.
  apply Z.eqb_neq in Hne. now rewrite Hne.
Qed.

(** X4: when the arity matches, no entry from the mark to the tip is nil
    and the call returns, [methodcall] sets SA to the empty string for a
    method without results, and to the first result otherwise; the other
    results are dropped. *)
Theorem txMethodCall_result
    (st : State) (op : Op) (m : Z) (t : GoType) (method : Method)
    (ret : list Value) :
  CurrentOp st = Ok op ->
  CurrentMark st = Ok m ->
  m <= Stack.Cur (stack st) < m + 2 ^ 63 ->
  Type_of (Stack.Get (stack st) m) = Ok t ->
  MethodByName host t (interfaceToString host (Arg op)) = Some method ->
  NumIn method = Stack.Cur (stack st) - m ->
  Forall (fun a => a <> Nil) (call_args st m) ->
  Call method (call_args st m) = Ok ret ->
  txMethodCall host st
  = if NumOut method =? 0 then Ok (Advance (set_sa st (VStr EmptyString)))
    else match ret with
         | r0 :: _ => Ok (Advance (set_sa st r0))
         | [] => Panic "runtime error: index out of range"
         end.
Proof.
  intros Hop Hmark Htip Hty Hm Harity Hnonnil Hcall. unfold txMethodCall.
  rewrite Hop. simpl. rewrite Hmark. simpl.
  rewrite int_wrap_small by lia.
  rewrite !ltb_false by lia. simpl.
  rewrite Hty. simpl. rewrite Hm.
  rewrite length_args by lia.
  rewrite Harity, Z.eqb_refl. simpl.
  unfold reflect_Call. fold (call_args st m).
  replace (forallb _ (call_args st m)) with true.
  - rewrite Hcall. reflexivity.
  - symmetry. apply forallb_forall. intros a Ha.
    apply list_elem_of_In in Ha.
    apply (proj1 (Forall_forall _ _) Hnonnil) in Ha. now destruct a.
Qed.

(** X6: with nil at the mark (a variable that was not there, pushed as the
    invocant), [methodcall] panics: the type of the invocant is asked for
    before anything is checked. *)
Theorem txMethodCall_nil_invocant (st : State) (op : Op) (m : Z) :
  CurrentOp st = Ok op ->
  CurrentMark st = Ok m ->
  m <= Stack.Cur (stack st) < m + 2 ^ 63 ->
  Stack.Get (stack st) m = Nil ->
  txMethodCall host st
  = Panic "reflect: call of reflect.Value.Type on zero Value".
Proof.
  intros Hop Hmark Htip Hnil. unfold txMethodCall.
  rewrite Hop. simpl. rewrite Hmark. simpl.
  rewrite int_wrap_small by lia.
  rewrite !ltb_false by lia. simpl.
  now rewrite Hnil.
Qed.


(** X5: the calling protocol.  From a state with the invocant in SA,
    [pushmark], [push] and [methodcall] of a method that takes its receiver
    only return with the first result of the call in SA; the mark is still
    on the mark stack and the invocant still on the operand stack:
    [methodcall] pops neither. *)
Theorem call_protocol
    (st : State) (op : Op) (method : Method) (r : Value) (rest : list Value) :
  0 <= pc st ->
  bytecode st !! Z.to_nat (pc st + 2) = Some op ->
  0 <= Stack.Cur (stack st) ->
  sa st <> Nil ->
  MethodByName host (TypeOf_nonnil (sa st)) (interfaceToString host (Arg op))
  = Some method ->
  NumIn method = 1 ->
  NumOut method <> 0 ->
  Call method [sa st] = Ok (r :: rest) ->
  exists s1 s2 s3,
    txPushmark st = Ok s1 /\ txPush s1 = Ok s2 /\ txMethodCall host s2 = Ok s3
    /\ sa s3 = r
    /\ markstack s3 = Stack.Cur (stack st) :: markstack st
    /\ Stack.Cur (stack s3) = Stack.Cur (stack st) + 1
    /\ Stack.Get (stack s3) (Stack.Cur (stack st)) = sa st
    /\ pc s3 = pc st + 3.
Proof.
  intros Hpc Hop Hcur Hnil Hm Hin Hout Hcall.
  unfold txPushmark, txPush.
  exists (Advance (Pushmark st)).
  change (stack (Advance (Pushmark st))) with (stack st).
  change (sa (Advance (Pushmark st))) with (sa st).
  rewrite Stack_Push_ok by exact Hcur. simpl bind.
  eexists. eexists.
  split; [reflexivity |]. split; [reflexivity |].
  set (s2 := Advance _).
  assert (Hget : Stack.Get (stack s2) (Stack.Cur (stack st)) = sa st).
  { subst s2. simpl. apply Stack_Get_write_eq. exact Hcur. }
  assert (Hargs : call_args s2 (Stack.Cur (stack st)) = [sa st]).
  { unfold call_args. subst s2. simpl.
    replace (Stack.cur (stack st) + 1 - Stack.Cur (stack st)) with 1
      by (unfold Stack.Cur; lia).
    change (seqZ (Stack.Cur (stack st)) 1) with [Stack.Cur (stack st)].
    simpl. f_equal. apply Stack_Get_write_eq. exact Hcur. }
  assert (Hres : txMethodCall host s2 = Ok (Advance (set_sa s2 r))).
  { rewrite (txMethodCall_result s2 op (Stack.Cur (stack st))
               (TypeOf_nonnil (sa st)) method (r :: rest)).
    - apply Z.eqb_neq in Hout. now rewrite Hout.
    - apply (CurrentOp_at s2 (pc st + 2) op); [lia | exact Hop |].
      subst s2. simpl. lia.
    - reflexivity.
    - subst s2. simpl. unfold Stack.Cur. lia.
    - rewrite Hget. now apply Type_of_nonnil.
    - exact Hm.
    - rewrite Hin. subst s2. simpl. unfold Stack.Cur. lia.
    - rewrite Hargs. constructor; [exact Hnil | constructor].
    - now rewrite Hargs. }
  split; [exact Hres |].
  subst s2. simpl. repeat split.
  - apply Stack_Get_write_eq. exact Hcur.
  - lia.
Qed.



(** X9: [for_start] leaves SA as it found it, and [for_iter] takes the slot
    number from SA; run on the state that [for_start] returned for a value
    that is not an integer (the sequence to loop over, for one), [for_iter]
    panics. *)
Theorem txForIter_after_txForStart (st st' : State) :
  (forall n, sa st <> VInt n) ->
  txForStart st = Ok st' ->
  sa st' = sa st
  /\ txForIter st' = Panic "interface conversion: not an int".
Proof.
  intros Hint H. unfold txForStart in H. invert_ok. simpl.
  split; [reflexivity |].
  unfold txForIter. simpl.
  destruct (sa st) eqn:Hsa; simpl; try reflexivity.
  now destruct (Hint n).
Qed.


(** X10: [save_to_lvar i] and then [load_lvar i] give SA back, whatever SA
    was set to in between, when slot [i] is addressable in the current
    frame. *)
Theorem save_then_load_lvar
    (st : State) (i : Z) (op1 op2 : Op) (cf0 : Frame.t) (w : Value) :
  CurrentOp st = Ok op1 ->
  ArgInt op1 = Ok i ->
  bytecode st !! Z.to_nat (pc st + 1) = Some op2 ->
  ArgInt op2 = Ok i ->
  CurrentFrame st = Ok cf0 ->
  0 <= i - Frame.mark cf0 < 2 ^ 63 ->
  exists s1 s2,
    txSaveToLvar st = Ok s1 /\ txLoadLvar (set_sa s1 w) = Ok s2
    /\ sa s2 = sa st /\ pc s2 = pc st + 2.
Proof.
  intros Hop1 Hi1 Hop2 Hi2 Hcf Hslot.
  assert (Hpc : 0 <= pc st).
  { unfold CurrentOp in Hop1.
    destruct (bool_decide (0 <= pc st)) eqn:E; [| discriminate].
    now apply bool_decide_eq_true in E. }
  unfold txSaveToLvar. rewrite Hop1. simpl. rewrite Hi1. simpl.
  rewrite Hcf. simpl. rewrite SetLvar_ok by exact Hslot. simpl.
  unfold CurrentFrame in Hcf.
  destruct (framestack st) as [| fe rest] eqn:Hfs; [discriminate |].
  injection Hcf as <-. simpl in *.
  eexists. eexists. split; [reflexivity |].
  unfold txLoadLvar.
  rewrite (CurrentOp_at _ (pc st + 1) op2) by (simpl; (lia || exact Hop2)).
  simpl. rewrite Hi2. simpl.
  unfold CurrentFrame. simpl. rewrite Hfs. simpl.
  split; [reflexivity |]. simpl.
  rewrite GetLvar_index by (simpl; lia). simpl.
  split; [| lia].
  now rewrite Stack_Get_write_eq by lia.
Qed.

(** X11: on a value that is not nil, [print_raw] appends what [mark_raw]
    followed by [print] appends: the string form, unescaped. *)
Theorem print_raw_is_mark_raw_print (st : State) :
  sa st <> Nil ->
  exists s1 s2 s3,
    txPrintRaw host st = Ok s1
    /\ txMarkRaw host st = Ok s2 /\ txPrint host s2 = Ok s3
    /\ output s1 = output st +:+ interfaceToString host (sa st)
    /\ output s3 = output s1.
Proof.
  intros Hnil. unfold txPrintRaw, txMarkRaw.
  rewrite (Type_of_nonnil _ Hnil). simpl.
  destruct (sa st) eqn:Hsa; try congruence; simpl;
    eexists; eexists; eexists;
    (split; [reflexivity |]); (split; [reflexivity |]);
    unfold txPrint; simpl; rewrite ?Hsa; simpl;
    (split; [reflexivity |]); auto.
Qed.

(** X12: [html_escape] leaves a plain string in SA, not a raw one, so the
    [print] after it escapes a second time; and as it turns nil into the
    empty string, that [print] records no warning. *)
Theorem html_escape_then_print (st : State) :
  exists s1 s2,
    txHtmlEscape host st = Ok s1 /\ txPrint host s1 = Ok s2
    /\ output s2
       = output st
         +:+ html_EscapeString (html_EscapeString (interfaceToString host (sa st)))
    /\ warn s2 = warn st.
Proof.
  unfold txHtmlEscape. eexists. eexists.
  split; [reflexivity |].
  unfold txPrint. simpl. split; [reflexivity |]. auto.
Qed.

(** X13: the raw-mark handlers change nothing but PC when there is nothing
    to do: [mark_raw] on a raw string, and [unmark_raw] on a value that is
    neither nil nor a raw string, which is thus not turned into a string. *)
Theorem raw_mark_noops (st : State) :
  (forall s, sa st = VRaw s -> txMarkRaw host st = Ok (Advance st))
  /\ (sa st <> Nil -> (forall s, sa st <> VRaw s) ->
      txUnmarkRaw host st = Ok (Advance st)).
Proof.
  unfold txMarkRaw, txUnmarkRaw. split.
  - intros s ->. reflexivity.
  - intros Hnil Hraw. rewrite (Type_of_nonnil _ Hnil). simpl.
    destruct (is_rawStringType (TypeOf_nonnil (sa st))) eqn:E; [| reflexivity].
    apply is_raw_TypeOf in E as [s Hs]. now destruct (Hraw s).
Qed.

Lemma int_wrap_add_sub (a b : Z) :
  - 2 ^ 63 <= a < 2 ^ 63 -> int_wrap (int_wrap (a + b) - b) = a.
Proof.
  intros Ha. unfold int_wrap.
  replace ((a + b + 2 ^ 63) mod 2 ^ 64 - 2 ^ 63 - b + 2 ^ 63)
    with ((a + b + 2 ^ 63) mod 2 ^ 64 - b) by lia.
  rewrite Zminus_mod_idemp_l.
  replace (a + b + 2 ^ 63 - b) with (a + 2 ^ 63) by lia.
  rewrite Z.mod_small by lia. lia.
Qed.

Lemma int_wrap_range (z : Z) : - 2 ^ 63 <= int_wrap z < 2 ^ 63.
Proof.
  unfold int_wrap.
  pose proof (Z.mod_pos_bound (z + 2 ^ 63) (2 ^ 64) ltac:(lia)). lia.
Qed.

(** X14: integer arithmetic wraps around and stays invertible.  With the
    integers [a] in SB and [b] in SA, [add] returns an integer of the
    [int64] range that differs from [a + b] by a multiple of 2^64; moved to
    SB and with [b] in SA again, [sub] gives [a] back. *)
Theorem add_then_sub (st : State) (a b : Z) :
  sb st = VInt a -> sa st = VInt b ->
  - 2 ^ 63 <= a < 2 ^ 63 ->
  exists s1 s2 s3 c,
    txAdd host st = Ok s1 /\ sa s1 = VInt c
    /\ - 2 ^ 63 <= c < 2 ^ 63 /\ (c - (a + b)) mod 2 ^ 64 = 0
    /\ txMoveToSb s1 = Ok s2
    /\ txSub host (set_sa s2 (VInt b)) = Ok s3
    /\ sa s3 = VInt a.
Proof.
  intros Hsb Hsa Ha. unfold txAdd. rewrite Hsb, Hsa, align_ints. simpl.
  eexists. eexists. eexists. exists (int_wrap (a + b)).
  split; [reflexivity |]. split; [reflexivity |].
  split; [apply int_wrap_range |].
  split.
  { unfold int_wrap.
    replace ((a + b + 2 ^ 63) mod 2 ^ 64 - 2 ^ 63 - (a + b))
      with ((a + b + 2 ^ 63) mod 2 ^ 64 - (a + b + 2 ^ 63)) by lia.
    rewrite Zminus_mod_idemp_l. now rewrite Z.sub_diag. }
  unfold txMoveToSb. split; [reflexivity |].
  unfold txSub. simpl.
  split; [reflexivity |].
  now rewrite int_wrap_add_sub.
Qed.

(** [ne] is the negation of [eq]: on every state either both panic,
    or both return, with states that differ in the boolean in SA only. *)
Theorem txNe_negates_txEq (st : State) :
  match txEq host st, txNe host st with
  | Ok s1, Ok s2 =>
      exists b, sa s1 = VBool b /\ s2 = set_sa s1 (VBool (negb b))
  | Panic m1, Panic m2 => m1 = m2
  | _, _ => False
  end.
Proof.
  unfold txEq, txNe.
  destruct (interface_eq host (sb st) (sa st)) as [b | m]; simpl.
  - exists b. split; reflexivity.
  - reflexivity.
Qed.

(** X15: a variable that is not in the bag prints as nothing.  [fetch_s] of
    a missing key sets SA to nil without a warning, and the [print] after it
    appends nothing to the output and records the one warning. *)
Theorem print_missing_variable (st : State) (op : Op) (key : string) :
  CurrentOp st = Ok op ->
  Arg op = VStr key ->
  vars st !! key = None ->
  exists s1 s2,
    txFetchSymbol st = Ok s1 /\ sa s1 = Nil /\ warn s1 = warn st
    /\ txPrint host s1 = Ok s2
    /\ output s2 = output st
    /\ warn s2 = warn st ++ ["Use of nil to print" +:+ newline]
    /\ pc s2 = pc st + 2.
Proof.
  intros Hop Harg Hnone. unfold txFetchSymbol.
  rewrite Hop. simpl. rewrite Harg. simpl. rewrite Hnone.
  eexists. eexists. split; [reflexivity |]. simpl.
  split; [reflexivity |]. split; [reflexivity |].
  unfold txPrint. simpl. split; [reflexivity |]. simpl.
  repeat split. lia.
Qed.

End MoreHandlers.

(** Two different opcodes have different names. *)
Theorem opname_injective (o1 o2 : OpType) :
  o1 <> o2 -> opname o1 <> opname o2.
Proof.
  destruct o1, o2; simpl; intros H; try discriminate; now destruct H.
Qed.

(** ** Frames: reading and writing local variables *)

(** X16: a local variable that was set reads back.  When the index less
    the mark is not negative, [SetLvar(i, v)] returns, [GetLvar(i)] then
    gives [v], every other local reads as before, and neither the mark nor
    the tip of the stack has moved. *)
Theorem SetLvar_then_GetLvar (f : Frame.t) (i : Z) (v : Value) :
  0 <= i - Frame.mark f < 2 ^ 63 ->
  exists f',
    Frame.SetLvar f i v = Ok f'
    /\ Frame.GetLvar f' i = v
    /\ (forall j, - 2 ^ 63 <= j - Frame.mark f < 2 ^ 63 -> j <> i ->
                  Frame.GetLvar f' j = Frame.GetLvar f j)
    /\ Frame.Mark f' = Frame.Mark f
    /\ Frame.LastLvarIndex f' = Frame.LastLvarIndex f.
Proof.
  intros Hslot. rewrite SetLvar_ok by exact Hslot.
  eexists. split; [reflexivity |].
  destruct f as [n [d c] m]. simpl in *.
  split; [| split; [| split; reflexivity]].
  - rewrite GetLvar_index by (simpl; lia). simpl.
    now rewrite Stack_Get_write_eq by lia.
  - intros j Hj Hne.
    rewrite !GetLvar_index by (simpl; lia). simpl.
    now rewrite Stack_Get_write_ne by lia.
Qed.

(** X17: the locals below the mark cannot be read.  [GetLvar(i)] with [i]
    less than the mark asks the stack for a negative index and returns nil,
    whatever the stack holds. *)
Theorem GetLvar_below_mark (f : Frame.t) (i : Z) :
  - 2 ^ 63 <= i - Frame.mark f < 0 -> Frame.GetLvar f i = Nil.
Proof.
  intros Hr. rewrite GetLvar_index by lia.
  unfold Stack.Get. now rewrite bool_decide_false by lia.
Qed.

(** Setting the mark to [m] makes local [j] what local [j - m] is with
    the mark at zero. *)
Theorem SetMark_shifts_locals (f : Frame.t) (m j : Z) :
  - 2 ^ 63 <= j - m < 2 ^ 63 ->
  Frame.GetLvar (Frame.SetMark f m) j
  = Frame.GetLvar (Frame.SetMark f 0) (j - m).
Proof.
  intros Hr. rewrite !GetLvar_index by (simpl; lia). simpl.
  f_equal. lia.
Qed.

(** ** Concrete runs of the handlers *)

Lemma txFetchField_pointer_panics_witness :
  exists m, txFetchField Sample.host Demo.fetch_through_pointer = Panic m.
Proof.
  apply (txFetchField_pointer_panics Sample.host Demo.fetch_through_pointer
           (Sample.user "Ada")).
  reflexivity.
Defined.

Lemma txMethodCall_arity_mismatch_witness :
  txMethodCall Sample.host Run.call_arity
  = Ok (Advance (set_sa (Warnf Run.call_arity (arity_warning 1 (2 - 0))) Nil)).
Proof.
  apply (txMethodCall_arity_mismatch Sample.host Run.call_arity
           (mkOp TXOP_methodcall (VStr "Name")) 0 (TNamed "User")
           Sample.User_Name).
  - reflexivity.
  - reflexivity.
  - simpl. lia.
  - reflexivity.
  - reflexivity.
  - simpl. lia.
Defined.

Lemma txMethodCall_result_witness :
  txMethodCall Sample.host Demo.call_touch
  = Ok (Advance (set_sa Demo.call_touch (VStr EmptyString))).
Proof.
  apply (txMethodCall_result Sample.host Demo.call_touch
           (mkOp TXOP_methodcall (VStr "Touch")) 0 (TNamed "User")
           Sample.User_Touch []).
  - reflexivity.
  - reflexivity.
  - simpl. lia.
  - reflexivity.
  - reflexivity.
  - reflexivity.
  - repeat constructor. discriminate.
  - reflexivity.
Defined.

Lemma call_protocol_witness :
  exists s1 s2 s3,
    txPushmark Demo.protocol = Ok s1 /\ txPush s1 = Ok s2
    /\ txMethodCall Sample.host s2 = Ok s3
    /\ sa s3 = VStr "Ada"
    /\ markstack s3 = [0]
    /\ Stack.Cur (stack s3) = 0 + 1
    /\ Stack.Get (stack s3) 0 = Sample.user "Ada"
    /\ pc s3 = 0 + 3.
Proof.
  apply (call_protocol Sample.host Demo.protocol
           (mkOp TXOP_methodcall (VStr "Name")) Sample.User_Name
           (VStr "Ada") []).
  - simpl. lia.
  - reflexivity.
  - simpl. lia.
  - discriminate.
  - reflexivity.
  - reflexivity.
  - discriminate.
  - reflexivity.
Defined.

Lemma txMethodCall_nil_invocant_witness :
  txMethodCall Sample.host Run.call_on_nil
  = Panic "reflect: call of reflect.Value.Type on zero Value".
Proof.
  apply (txMethodCall_nil_invocant Sample.host Run.call_on_nil
           (mkOp TXOP_methodcall (VStr "Name")) 0).
  - reflexivity.
  - reflexivity.
  - simpl. lia.
  - reflexivity.
Defined.



Lemma txForIter_after_txForStart_witness :
  sa (Advance (set_stack Run.loop_start
         (Stack.mk [Nil; VInt (-1); VReflect (VSlice [VInt 1; VInt 2])] 0)))
  = sa Run.loop_start
  /\ txForIter (Advance (set_stack Run.loop_start
         (Stack.mk [Nil; VInt (-1); VReflect (VSlice [VInt 1; VInt 2])] 0)))
     = Panic "interface conversion: not an int".
Proof.
  apply (txForIter_after_txForStart Run.loop_start).
  - discriminate.
  - reflexivity.
Defined.

Lemma save_then_load_lvar_witness :
  exists s1 s2,
    txSaveToLvar Demo.save_load = Ok s1 /\ txLoadLvar (set_sa s1 Nil) = Ok s2
    /\ sa s2 = VStr "kept" /\ pc s2 = 0 + 2.
Proof.
  apply (save_then_load_lvar Demo.save_load 3
           (mkOp TXOP_save_to_lvar (VInt 3)) (mkOp TXOP_load_lvar (VInt 3))
           (Frame.mk EmptyString Stack.New 0) Nil).
  - reflexivity.
  - reflexivity.
  - reflexivity.
  - reflexivity.
  - reflexivity.
  - simpl. lia.
Defined.

Lemma print_raw_is_mark_raw_print_witness :
  exists s1 s2 s3,
    txPrintRaw Sample.host (Run.with_sa (VStr "<b>") []) = Ok s1
    /\ txMarkRaw Sample.host (Run.with_sa (VStr "<b>") []) = Ok s2
    /\ txPrint Sample.host s2 = Ok s3
    /\ output s1 = "<b>"
    /\ output s3 = output s1.
Proof.
  apply (print_raw_is_mark_raw_print Sample.host (Run.with_sa (VStr "<b>") [])).
  discriminate.
Defined.

Lemma raw_mark_noops_witness :
  txUnmarkRaw Sample.host (Run.with_sa (VInt 42) [])
  = Ok (Advance (Run.with_sa (VInt 42) [])).
Proof.
  apply (proj2 (raw_mark_noops Sample.host (Run.with_sa (VInt 42) []))).
  - discriminate.
  - discriminate.
Defined.

Lemma add_then_sub_witness :
  exists s1 s2 s3 c,
    txAdd Sample.host Demo.add_overflow = Ok s1 /\ sa s1 = VInt c
    /\ - 2 ^ 63 <= c < 2 ^ 63 /\ (c - (2 ^ 63 - 1 + 5)) mod 2 ^ 64 = 0
    /\ txMoveToSb s1 = Ok s2
    /\ txSub Sample.host (set_sa s2 (VInt 5)) = Ok s3
    /\ sa s3 = VInt (2 ^ 63 - 1).
Proof.
  apply (add_then_sub Sample.host Demo.add_overflow (2 ^ 63 - 1) 5).
  - reflexivity.
  - reflexivity.
  - lia.
Defined.

Lemma print_missing_variable_witness :
  exists s1 s2,
    txFetchSymbol Demo.print_missing = Ok s1 /\ sa s1 = Nil
    /\ warn s1 = []
    /\ txPrint Sample.host s1 = Ok s2
    /\ output s2 = EmptyString
    /\ warn s2 = [] ++ ["Use of nil to print" +:+ newline]
    /\ pc s2 = 0 + 2.
Proof.
  apply (print_missing_variable Sample.host Demo.print_missing
           (mkOp TXOP_fetch_s (VStr "missing")) "missing").
  - reflexivity.
  - reflexivity.
  - reflexivity.
Defined.

Lemma opname_injective_witness :
  opname TXOP_print <> opname TXOP_print_raw.
Proof.
  apply (opname_injective TXOP_print TXOP_print_raw). discriminate.
Defined.

Lemma SetLvar_then_GetLvar_witness :
  exists f',
    Frame.SetLvar Run.frame1 2 (VStr "v") = Ok f'
    /\ Frame.GetLvar f' 2 = VStr "v"
    /\ (forall j, - 2 ^ 63 <= j - Frame.mark Run.frame1 < 2 ^ 63 -> j <> 2 ->
                  Frame.GetLvar f' j = Frame.GetLvar Run.frame1 j)
    /\ Frame.Mark f' = Frame.Mark Run.frame1
    /\ Frame.LastLvarIndex f' = Frame.LastLvarIndex Run.frame1.
Proof.
  apply (SetLvar_then_GetLvar Run.frame1 2 (VStr "v")). simpl. lia.
Defined.

Lemma GetLvar_below_mark_witness : Frame.GetLvar Run.frame1 0 = Nil.
Proof.
  apply (GetLvar_below_mark Run.frame1 0). simpl. lia.
Defined.

Lemma SetMark_shifts_locals_witness :
  Frame.GetLvar (Frame.SetMark Run.frame1 3) 4
  = Frame.GetLvar (Frame.SetMark Run.frame1 0) (4 - 3).
Proof.
  apply (SetMark_shifts_locals Run.frame1 3 4). lia.
Defined.

(** ** The cached bytecode loader *)

Section LoaderProperties.

Import Loader.

Context {BC Src Rdr Other : Type}.
Variable w : World BC Src Rdr Other.

(** X18: the memory cache is a finite map.  What [Set] stored under a key
    is what [Get] returns, until [Delete] removes it and [Get] reports
    [ErrCacheMiss], as it does on the empty cache; another key is not
    touched by either; and neither [Set] nor [Delete] ever returns an
    error, [Delete] of an absent key included. *)
Theorem MemoryCache_laws
    (c : MemoryCache BC Src) (key key' : string)
    (e : option (CacheEntity BC Src)) :
  MemoryCache_Get (fst (MemoryCache_Set c key e)) key = (e, None)
  /\ MemoryCache_Get (fst (MemoryCache_Delete c key)) key
     = (None, Some ErrCacheMiss)
  /\ MemoryCache_Get (∅ : MemoryCache BC Src) key = (None, Some ErrCacheMiss)
  /\ (key <> key' ->
      MemoryCache_Get (fst (MemoryCache_Set c key e)) key'
      = MemoryCache_Get c key'
      /\ MemoryCache_Get (fst (MemoryCache_Delete c key)) key'
         = MemoryCache_Get c key')
  /\ snd (MemoryCache_Set c key e) = None
  /\ snd (MemoryCache_Delete c key) = None.
Proof.
  unfold MemoryCache_Get, MemoryCache_Set, MemoryCache_Delete. cbn [fst snd].
  unfold MemoryCache in *.
  repeat split.
  - now rewrite lookup_insert_eq.
  - now rewrite lookup_delete_eq.
  - now rewrite lookup_insert_ne.
  - now rewrite lookup_delete_ne.
Qed.

(** The loop over the caches stops at the first cache whose [Get] returns
    no error. *)
Lemma lookup_first_hit
    (pre post : list (Cache BC Src Other)) (c : Cache BC Src Other)
    (key : string) (e e0 : option (CacheEntity BC Src)) (err0 : option error) :
  Forall (fun c' => snd (Cache_Get w c' key) <> None) pre ->
  Cache_Get w c key = (e, None) ->
  lookup w (pre ++ c :: post) key e0 err0 = (e, None).
Proof.
  intros Hpre Hc. revert e0 err0.
  induction Hpre as [| c' pre Hc' _ IH]; intros e0 err0; simpl.
  - now rewrite Hc.
  - destruct (Cache_Get w c' key) as [e' [er |]]; simpl in *.
    + apply IH.
    + now destruct Hc'.
Qed.

(** When every cache reports an error, the loop ends with an error. *)
Lemma lookup_all_miss
    (caches : list (Cache BC Src Other)) (key : string)
    (e0 : option (CacheEntity BC Src)) (er0 : error) :
  Forall (fun c' => snd (Cache_Get w c' key) <> None) caches ->
  exists e er, lookup w caches key e0 (Some er0) = (e, Some er).
Proof.
  intros H. revert e0 er0.
  induction H as [| c' rest Hc' _ IH]; intros e0 er0; simpl.
  - eauto.
  - destruct (Cache_Get w c' key) as [e' [er |]]; simpl in *.
    + apply IH.
    + now destruct Hc'.
Qed.

(** X19: the strategy [CacheNone] skips reading the caches, not writing
    them: when the template is fetched, read and compiled without error,
    [Load] returns the bytecode and has stored the new entity under the key
    in every cache. *)
Theorem Load_CacheNone_still_stores
    (l : CachedByteCodeLoader BC Src Other) (key : string)
    (src : Src) (rdr : Rdr) (bc : option BC) :
  CacheLevel l = CacheNone ->
  FetchTemplate w key = (Some src, None) ->
  Source_Reader w src = (rdr, None) ->
  LoadReader w key rdr = (bc, None) ->
  Load w l key
  = Ok ((bc, None),
        (fun c => Cache_Set w c key (Some (mkEntity bc (Some src))))
          <$> Caches l).
Proof.
  intros Hlevel Hfetch Hrdr Hload. unfold Load. rewrite Hlevel. simpl.
  unfold compile. rewrite Hfetch, Hrdr, Hload. reflexivity.
Qed.

(** X20: with [CacheNoVerify], the first cache whose [Get] returns no error
    answers: [Load] returns the bytecode of its entity and leaves every
    cache as it is, so a hit in a later cache is not copied into the
    earlier ones; nothing is fetched or compiled. *)
Theorem Load_NoVerify_hit
    (l : CachedByteCodeLoader BC Src Other) (key : string)
    (pre post : list (Cache BC Src Other)) (c : Cache BC Src Other)
    (e : CacheEntity BC Src) :
  CacheLevel l = CacheNoVerify ->
  Caches l = pre ++ c :: post ->
  Forall (fun c' => snd (Cache_Get w c' key) <> None) pre ->
  Cache_Get w c key = (Some e, None) ->
  Load w l key = Ok ((ByteCode e, None), Caches l).
Proof.
  intros Hlevel Hcaches Hpre Hc. unfold Load. rewrite Hlevel. simpl.
  rewrite Hcaches at 1.
  now rewrite (lookup_first_hit pre post c key (Some e) None None Hpre Hc).
Qed.

(** X21: with [CacheVerify], a hit is used only when the source was last
    modified strictly before the bytecode was generated; otherwise, also
    when the two times are equal, the template is compiled again from the
    cached source, without a call of the fetcher. *)
Theorem Load_Verify_hit
    (l : CachedByteCodeLoader BC Src Other) (key : string)
    (pre post : list (Cache BC Src Other)) (c : Cache BC Src Other)
    (e : CacheEntity BC Src) (src : Src) (bc : BC) (t : Z) :
  CacheLevel l = CacheVerify ->
  Caches l = pre ++ c :: post ->
  Forall (fun c' => snd (Cache_Get w c' key) <> None) pre ->
  Cache_Get w c key = (Some e, None) ->
  Source e = Some src ->
  ByteCode e = Some bc ->
  LastModified w src = (t, None) ->
  Load w l key
  = if t <? GeneratedOn w bc
    then Ok ((Some bc, None), Caches l)
    else
      let '(rdr, err) := Source_Reader w src in
      match err with
      | Some _ => Ok ((None, err), Caches l)
      | None =>
          let '(bc', err) := LoadReader w key rdr in
          match err with
          | Some _ => Ok ((None, err), Caches l)
          | None =>
              Ok ((bc', None),
                  (fun c => Cache_Set w c key (Some (mkEntity bc' (Some src))))
                    <$> Caches l)
          end
      end.
Proof.
  intros Hlevel Hcaches Hpre Hc Hsrc Hbc Ht. unfold Load. rewrite Hlevel. simpl.
  rewrite Hcaches at 1.
  rewrite (lookup_first_hit pre post c key (Some e) None None Hpre Hc).
  rewrite Hsrc, Ht, Hbc.
  destruct (t <? GeneratedOn w bc); [reflexivity |].
  unfold compile. reflexivity.
Qed.

(** X22: [Load] writes to the caches only when it succeeds after
    compiling, and then it stores one and the same entity, holding the
    bytecode it returns, under the key in every cache; when it returns an
    error, or answers from a cache, every cache is as it was. *)
Theorem Load_writes_only_on_success
    (l : CachedByteCodeLoader BC Src Other) (key : string)
    (bc : option BC) (err : option error)
    (caches' : list (Cache BC Src Other)) :
  Load w l key = Ok ((bc, err), caches') ->
  caches' = Caches l
  \/ (err = None
      /\ exists src,
           caches'
           = (fun c => Cache_Set w c key (Some (mkEntity bc (Some src))))
               <$> Caches l).
Proof.
  assert (Hcompile : forall source,
             compile w l key source = Ok ((bc, err), caches') ->
             caches' = Caches l
             \/ (err = None
                 /\ exists src,
                      caches'
                      = (fun c => Cache_Set w c key (Some (mkEntity bc (Some src))))
                          <$> Caches l)).
  { intros source H. unfold compile in H.
    destruct source as [s |]; [| destruct (FetchTemplate w key) as [[s |] [er |]]];
      simpl in H; try (injection H as <- <- <-; now left); try discriminate.
    all: destruct (Source_Reader w s) as [rdr [er |]];
      [injection H as <- <- <-; now left |].
    all: destruct (LoadReader w key rdr) as [bc' [er |]];
      [injection H as <- <- <-; now left |].
    all: injection H as <- <- <-; right; split; [reflexivity | eauto]. }
  intros H. unfold Load in H.
  destruct (strategy_code CacheNone <? strategy_code (CacheLevel l));
    [| now apply (Hcompile None)].
  destruct (lookup w (Caches l) key None None) as [entity [er |]];
    [now apply (Hcompile None) |].
  destruct entity as [e |]; [| discriminate].
  destruct (CacheLevel l).
  - destruct (Source e) as [src |]; [| discriminate].
    destruct (LastModified w src) as [t [er |]];
      [injection H as <- <- <-; now left |].
    destruct (ByteCode e) as [bc0 |]; [| discriminate].
    destruct (t <? GeneratedOn w bc0);
      [injection H as <- <- <-; now left | now apply (Hcompile (Some src))].
  - destruct (Source e) as [src |]; [| discriminate].
    destruct (LastModified w src) as [t [er |]];
      [injection H as <- <- <-; now left |].
    destruct (ByteCode e) as [bc0 |]; [| discriminate].
    destruct (t <? GeneratedOn w bc0);
      [injection H as <- <- <-; now left | now apply (Hcompile (Some src))].
  - injection H as <- <- <-. now left.
Qed.

(** X23: a loader without caches and with a caching strategy panics: the
    loop over no caches leaves the error nil and the entity nil, and the
    entity is dereferenced. *)
Theorem Load_without_caches_panics
    (l : CachedByteCodeLoader BC Src Other) (key : string) :
  Caches l = [] ->
  CacheLevel l <> CacheNone ->
  exists m, Load w l key = Panic m.
Proof.
  intros Hcaches Hlevel. unfold Load. rewrite Hcaches.
  destruct (CacheLevel l); [now destruct Hlevel | simpl; eauto ..].
Qed.

(** X24: what [Load] compiled is found again.  After a loader made by
    [NewCachedByteCodeLoader] has missed in both caches and compiled the
    template, a [Load] of the same key with [CacheNoVerify] on the caches it
    left returns the same bytecode from the memory cache and changes
    nothing, whatever the second cache does with what it is given. *)
Theorem Load_twice
    (cache : Other) (level : CacheStrategy) (key : string)
    (src : Src) (rdr : Rdr) (bc : option BC) :
  snd (other_Get w cache key) <> None ->
  FetchTemplate w key = (Some src, None) ->
  Source_Reader w src = (rdr, None) ->
  LoadReader w key rdr = (bc, None) ->
  exists caches',
    Load w (NewCachedByteCodeLoader cache level) key = Ok ((bc, None), caches')
    /\ Load w (mkLoader caches' CacheNoVerify) key = Ok ((bc, None), caches').
Proof.
  intros Hmiss Hfetch Hrdr Hload.
  assert (H1 : Load w (NewCachedByteCodeLoader cache level) key
               = Ok ((bc, None),
                     (fun c => Cache_Set w c key (Some (mkEntity bc (Some src))))
                       <$> Caches (NewCachedByteCodeLoader cache level))).
  { unfold Load.
    assert (Hlook : exists e er,
               lookup w (Caches (NewCachedByteCodeLoader cache level)) key None None
               = (e, Some er)).
    { simpl. unfold MemoryCache_Get, MemoryCache. rewrite lookup_empty.
      destruct (other_Get w cache key) as [e [er |]]; simpl in *; eauto.
      now destruct Hmiss. }
    destruct Hlook as (e & er & ->).
    assert (Hc : forall source, source = None ->
               compile w (NewCachedByteCodeLoader cache level) key source
               = Ok ((bc, None),
                     (fun c => Cache_Set w c key (Some (mkEntity bc (Some src))))
                       <$> Caches (NewCachedByteCodeLoader cache level))).
    { intros source ->. unfold compile. now rewrite Hfetch, Hrdr, Hload. }
    destruct (strategy_code CacheNone <? strategy_code _); now apply Hc. }
  eexists. split; [exact H1 |].
  simpl.
  set (entity := mkEntity bc (Some src)).
  set (caches' := [CMemory (<[key := Some entity]> ∅);
                   COther (other_Set w cache key (Some entity))]).
  apply (Load_NoVerify_hit (mkLoader caches' CacheNoVerify) key []
           [COther (other_Set w cache key (Some entity))]
           (CMemory (<[key := Some entity]> ∅)) entity).
  - reflexivity.
  - reflexivity.
  - constructor.
  - simpl. unfold MemoryCache_Get, MemoryCache. now rewrite lookup_insert_eq.
Qed.

End LoaderProperties.

(** ** Concrete runs of the loader *)

Lemma Load_CacheNone_still_stores_witness :
  Loader.Load Loader.sample_world Loader.uncached_loader "hello"
  = Ok ((Some 100, None),
        (fun c => Loader.Cache_Set Loader.sample_world c "hello"
                    (Some (Loader.mkEntity (Some 100) (Some ("Hello!", 50)))))
          <$> Loader.Caches Loader.uncached_loader).
Proof.
  apply (Load_CacheNone_still_stores Loader.sample_world
           Loader.uncached_loader "hello" ("Hello!", 50) "Hello!" (Some 100));
    reflexivity.
Defined.

Lemma Load_NoVerify_hit_witness :
  Loader.Load Loader.sample_world Loader.noverify_loader "hello"
  = Ok ((Loader.ByteCode Loader.hello_entity, None),
        Loader.Caches Loader.noverify_loader).
Proof.
  apply (Load_NoVerify_hit Loader.sample_world Loader.noverify_loader "hello"
           [Loader.COther tt] [] Loader.warm_cache Loader.hello_entity).
  - reflexivity.
  - reflexivity.
  - repeat constructor. simpl. discriminate.
  - vm_compute. reflexivity.
Defined.

Lemma Load_Verify_hit_witness :
  Loader.Load Loader.sample_world Loader.verify_loader "hello"
  = Ok ((Some 100, None),
        (fun c => Loader.Cache_Set Loader.sample_world c "hello"
                    (Some (Loader.mkEntity (Some 100) (Some ("Hello!", 50)))))
          <$> Loader.Caches Loader.verify_loader).
Proof.
  apply (Load_Verify_hit Loader.sample_world Loader.verify_loader "hello"
           [] [] Loader.stale_cache Loader.stale_entity ("Hello!", 50) 40 50).
  - reflexivity.
  - reflexivity.
  - constructor.
  - vm_compute. reflexivity.
  - reflexivity.
  - reflexivity.
  - reflexivity.
Defined.

Lemma Load_writes_only_on_success_witness :
  Loader.Caches Loader.noverify_loader = Loader.Caches Loader.noverify_loader
  \/ ((None : option Loader.error) = None
      /\ exists src,
           Loader.Caches Loader.noverify_loader
           = (fun c => Loader.Cache_Set Loader.sample_world c "hello"
                         (Some (Loader.mkEntity (Some 100) (Some src))))
               <$> Loader.Caches Loader.noverify_loader).
Proof.
  apply (Load_writes_only_on_success Loader.sample_world
           Loader.noverify_loader "hello" (Some 100) None
           (Loader.Caches Loader.noverify_loader)).
  vm_compute. reflexivity.
Defined.

Lemma Load_without_caches_panics_witness :
  exists m,
    Loader.Load Loader.sample_world Loader.cacheless_loader "hello" = Panic m.
Proof.
  apply (Load_without_caches_panics Loader.sample_world
           Loader.cacheless_loader "hello").
  - reflexivity.
  - discriminate.
Defined.

Lemma Load_twice_witness :
  exists caches',
    Loader.Load Loader.sample_world
      (Loader.NewCachedByteCodeLoader tt Loader.CacheVerify) "hello"
    = Ok ((Some 100, None), caches')
    /\ Loader.Load Loader.sample_world
         (Loader.mkLoader caches' Loader.CacheNoVerify) "hello"
       = Ok ((Some 100, None), caches').
Proof.
  apply (Load_twice Loader.sample_world tt Loader.CacheVerify "hello"
           ("Hello!", 50) "Hello!" (Some 100)).
  - simpl. discriminate.
  - reflexivity.
  - reflexivity.
  - reflexivity.
Defined.

(** ** The bytecode loader of loader/cache.go *)

Section CacheLoaderProperties.

Import Loader CacheLoader.

Context {BC Src Other : Type}.
Variable w : CacheLoader.World BC Src Other.

Lemma CacheLoader_lookup_first_hit
    (pre post : list (CacheLoader.Cache BC Other)) (c : CacheLoader.Cache BC Other)
    (key : string) (bc bc0 : option BC) (err0 : option error) :
  Forall (fun c' => snd (CacheLoader.Cache_Get w c' key) <> None) pre ->
  CacheLoader.Cache_Get w c key = (bc, None) ->
  CacheLoader.lookup w (pre ++ c :: post) key bc0 err0 = (bc, None).
Proof.
  intros Hpre Hc. revert bc0 err0.
  induction Hpre as [| c' pre Hc' _ IH]; intros bc0 err0; simpl.
  - now rewrite Hc.
  - destruct (CacheLoader.Cache_Get w c' key) as [b' [er |]]; simpl in *.
    + apply IH.
    + now destruct Hc'.
Qed.

(** X25: with [CacheVerify] a cache hit is not enough.  The template is
    fetched first, and a failure of the fetcher is what [Load] returns
    although the bytecode is in a cache; the cached bytecode is returned
    only when the source was last modified strictly before the bytecode was
    generated; otherwise the source that was just fetched is compiled,
    without a second fetch, and the result is stored in every cache. *)
Theorem CacheLoader_Verify_hit
    (l : CacheLoader.CachedByteCodeLoader BC Other) (key : string)
    (pre post : list (CacheLoader.Cache BC Other))
    (c : CacheLoader.Cache BC Other) (b : BC) :
  CacheLoader.CacheLevel l = CacheVerify ->
  CacheLoader.Caches l = pre ++ c :: post ->
  Forall (fun c' => snd (CacheLoader.Cache_Get w c' key) <> None) pre ->
  CacheLoader.Cache_Get w c key = (Some b, None) ->
  CacheLoader.Load w l key
  = match CacheLoader.FetchTemplate w key with
    | (_, Some e) => Ok ((None, Some e), CacheLoader.Caches l)
    | (None, None) =>
        Panic "runtime error: invalid memory address or nil pointer dereference"
    | (Some src, None) =>
        match CacheLoader.LastModified w src with
        | (_, Some e) => Ok ((None, Some e), CacheLoader.Caches l)
        | (t, None) =>
            if t <? CacheLoader.GeneratedOn w b
            then Ok ((Some b, None), CacheLoader.Caches l)
            else
              match CacheLoader.Bytes w src with
              | (_, Some e) => Ok ((None, Some e), CacheLoader.Caches l)
              | (content, None) =>
                  match CacheLoader.LoadString w content with
                  | (_, Some e) => Ok ((None, Some e), CacheLoader.Caches l)
                  | (bc', None) =>
                      Ok ((bc', None),
                          (fun c => CacheLoader.Cache_Set w c key bc')
                            <$> CacheLoader.Caches l)
                  end
              end
        end
    end.
Proof.
  intros Hlevel Hcaches Hpre Hc. unfold CacheLoader.Load. rewrite Hlevel. simpl.
  rewrite Hcaches at 1.
  rewrite (CacheLoader_lookup_first_hit pre post c key (Some b) None None Hpre Hc).
  destruct (CacheLoader.FetchTemplate w key) as [[src |] [e |]]; try reflexivity.
  destruct (CacheLoader.LastModified w src) as [t [e |]]; try reflexivity.
  destruct (t <? CacheLoader.GeneratedOn w b); [reflexivity |].
  unfold CacheLoader.compile.
  destruct (CacheLoader.Bytes w src) as [content [e |]]; try reflexivity.
  destruct (CacheLoader.LoadString w content) as [bc' [e |]]; reflexivity.
Qed.

(** X26: a loader without caches and with [CacheNoVerify] returns neither a
    bytecode nor an error: the loop over no caches leaves both nil, and that
    counts as a hit. *)
Theorem CacheLoader_without_caches
    (l : CacheLoader.CachedByteCodeLoader BC Other) (key : string) :
  CacheLoader.Caches l = [] ->
  CacheLoader.CacheLevel l = CacheNoVerify ->
  CacheLoader.Load w l key = Ok ((None, None), []).
Proof.
  intros Hcaches Hlevel. unfold CacheLoader.Load.
  now rewrite Hcaches, Hlevel.
Qed.

(** X27: the strategy [CacheNone] skips the reading of the caches and not
    the writing, whatever the comment on the constant says: [Load] answers
    as if the caches were empty, and when the template is fetched, read and
    compiled without error it stores the bytecode under the key in every
    cache. *)
Theorem CacheLoader_CacheNone_still_stores
    (l : CacheLoader.CachedByteCodeLoader BC Other) (key : string)
    (src : Src) (content : string) (bc : option BC) :
  CacheLoader.CacheLevel l = CacheNone ->
  CacheLoader.FetchTemplate w key = (Some src, None) ->
  CacheLoader.Bytes w src = (content, None) ->
  CacheLoader.LoadString w content = (bc, None) ->
  CacheLoader.Load w l key
  = Ok ((bc, None),
        (fun c => CacheLoader.Cache_Set w c key bc) <$> CacheLoader.Caches l).
Proof.
  intros Hlevel Hfetch Hbytes Hload. unfold CacheLoader.Load.
  rewrite Hlevel. simpl.
  unfold CacheLoader.compile. now rewrite Hfetch, Hbytes, Hload.
Qed.

End CacheLoaderProperties.

(** ** Concrete runs of the loader of loader/cache.go *)

Lemma CacheLoader_Verify_hit_witness :
  CacheLoader.Load CacheLoader.offline_world CacheLoader.verify_loader "hello"
  = Ok ((None, Some (Loader.ErrOther "no such template")),
        CacheLoader.Caches CacheLoader.verify_loader).
Proof.
  apply (CacheLoader_Verify_hit CacheLoader.offline_world
           CacheLoader.verify_loader "hello" [] [] CacheLoader.warm_cache 40).
  - reflexivity.
  - reflexivity.
  - constructor.
  - vm_compute. reflexivity.
Defined.

Lemma CacheLoader_without_caches_witness :
  CacheLoader.Load CacheLoader.offline_world CacheLoader.cacheless_loader "hello"
  = Ok ((None, None), []).
Proof.
  apply (CacheLoader_without_caches CacheLoader.offline_world
           CacheLoader.cacheless_loader "hello"); reflexivity.
Defined.

Lemma CacheLoader_CacheNone_still_stores_witness :
  CacheLoader.Load CacheLoader.online_world CacheLoader.uncached_loader "hello"
  = Ok ((Some 100, None),
        (fun c => CacheLoader.Cache_Set CacheLoader.online_world c "hello" (Some 100))
          <$> CacheLoader.Caches CacheLoader.uncached_loader).
Proof.
  apply (CacheLoader_CacheNone_still_stores CacheLoader.online_world
           CacheLoader.uncached_loader "hello" ("hello", 50) "hello" (Some 100));
    reflexivity.
Defined.

(** ** The syntax tree: names of the node types, and copies *)

Section ParserProperties.

Import Parser.

Lemma NodeType_in_range (n : NodeType) :
  0 <= n <= 17 -> In n node_types.
Proof.
  intros H. let l := eval vm_compute in node_types in change node_types with l.
  simpl. lia.
Qed.

Lemma NodeType_String_default (n : NodeType) :
  n < 0 \/ 17 < n -> NodeType_String n = "Unknown Node".
Proof.
  intros H. unfold NodeType_String, NodeNoop, NodeRoot, NodeText, NodeNumber,
    NodeInt, NodeFloat, NodeIf, NodeElse, NodeList, NodeForeach, NodeWrapper,
    NodeAssignment, NodeLocalVar, NodeFetchField, NodeMethodcall, NodePrint,
    NodePrintRaw, NodeFetchSymbol.
  repeat match goal with
         | |- context [?a =? ?b] => destruct (Z.eqb_spec a b) as [E|_]; [lia|]
         end.
  reflexivity.
Qed.

Ltac each_type H :=
  apply NodeType_in_range in H;
  (let l := eval vm_compute in node_types in change node_types with l in H);
  simpl in H;
  repeat (destruct H as [<-|H]); [..|destruct H].

(** X28: [NodeType.String] gives the text "Unknown Node" exactly to the
    integers that are none of the eighteen constants, and two node types
    have the same name only when they are equal or both unknown. *)
Theorem NodeType_String_names (n m : NodeType) :
  (NodeType_String n = "Unknown Node" <-> (n < 0 \/ 17 < n)) /\
  (NodeType_String n = NodeType_String m <->
   (n = m \/ ((n < 0 \/ 17 < n) /\ (m < 0 \/ 17 < m)))).
Proof.
  assert (Hu : forall k, NodeType_String k = "Unknown Node" -> k < 0 \/ 17 < k).
  { intros k Hk. destruct (Z_lt_le_dec k 0) as [|H0]; [now left|].
    destruct (Z_lt_le_dec 17 k) as [|H1]; [now right|].
    exfalso. assert (H : 0 <= k <= 17) by lia.
    each_type H; vm_compute in Hk; discriminate. }
  split.
  - split; [apply Hu | apply NodeType_String_default].
  - split.
    + intros E.
      destruct (Z_lt_le_dec n 0) as [|Hn0];
        [right; split; [now left|]; apply Hu; rewrite <- E;
         apply NodeType_String_default; now left|].
      destruct (Z_lt_le_dec 17 n) as [|Hn1];
        [right; split; [now right|]; apply Hu; rewrite <- E;
         apply NodeType_String_default; now right|].
      left.
      destruct (Z_lt_le_dec m 0) as [Hm|Hm0].
      { exfalso. rewrite (NodeType_String_default m) in E by now left.
        apply Hu in E. lia. }
      destruct (Z_lt_le_dec 17 m) as [Hm|Hm1].
      { exfalso. rewrite (NodeType_String_default m) in E by now right.
        apply Hu in E. lia. }
      assert (Hn : 0 <= n <= 17) by lia. assert (Hm : 0 <= m <= 17) by lia.
      clear Hn0 Hn1 Hm0 Hm1 Hu.
      each_type Hn; each_type Hm;
        first [reflexivity | vm_compute in E; discriminate].
    + intros [->|[Hn Hm]]; [reflexivity|].
      now rewrite !NodeType_String_default.
Qed.

(** X29: [Copy] keeps the node type of a constructed node exactly when that
    type is none of Root, Wrapper, Methodcall, Print, PrintRaw, FetchSymbol,
    If and Else: the copy of a node of one of these types is a List node (a
    Text node for FetchSymbol), because [Copy] goes through [NewListNode]
    and [NewTextNode] and does not set the type again. *)
Theorem Copy_keeps_type_iff (n n' : Node) (t : NodeType) :
  constructed n = true ->
  Type_ n = Ok t ->
  Copy n = Ok n' ->
  (Type_ n' = Ok t <-> ~ In t overridden_types) /\
  (In t overridden_types ->
   Type_ n' = Ok (if t =? NodeFetchSymbol then NodeText else NodeList)).
Proof.
  intros Hc Ht Hn.
  destruct n; simpl in Hc, Ht, Hn; try discriminate;
    injection Ht as <-;
    repeat match goal with
           | H : (_ || _) = true |- _ => apply orb_prop in H; destruct H as [H|H]
           | H : (_ =? _) = true |- _ => apply Z.eqb_eq in H; subst
           end;
    try (injection Hn as <-; simpl;
         split; [split; [intros E; try discriminate E; vm_compute; intuition discriminate
                        | intros E; try reflexivity; exfalso; apply E; vm_compute; tauto]
                | intros E; try reflexivity; vm_compute in E; intuition discriminate]).
  - (* foreach *)
    destruct (Copy n) ; simpl in Hn; [|discriminate]. injection Hn as <-. simpl.
    split; [split; [intros _; vm_compute; intuition discriminate | reflexivity]
           | intros E; vm_compute in E; intuition discriminate].
  - (* fetch field *)
    destruct (Copy n); simpl in Hn; [|discriminate]. injection Hn as <-. simpl.
    split; [split; [intros _; vm_compute; intuition discriminate | reflexivity]
           | intros E; vm_compute in E; intuition discriminate].
  - (* if *)
    assert (exists e, n' = IfNode NodeList pos nodes e) as [e ->].
    { destruct n; simpl in Hn;
        try (injection Hn as <-; eexists; reflexivity);
        match type of Hn with
        | bind ?r _ = _ => destruct r; simpl in Hn; [|discriminate]
        end; injection Hn as <-; eexists; reflexivity. }
    simpl. split; [split; [intros E; discriminate E
                          | intros E; exfalso; apply E; vm_compute; tauto]
                  | reflexivity].
Qed.

(** X30: [ForeachNode.Copy] never yields a copy.  When it returns, the
    node it returns is its receiver, children included; and on the node that
    [NewForeachNode] builds, whatever is appended to it, it panics, because
    the field [List] is nil. *)
Theorem ForeachNode_Copy_never_copies
  (ty pos : Z) (nodes : list Node) (name : string) (idx : Z) (lst : Node)
  (symbol : string) (children : list Node) :
  (forall n', Copy (ForeachNode ty pos nodes name idx lst) = Ok n' ->
              n' = ForeachNode ty pos nodes name idx lst /\ lst <> NilNode) /\
  (exists m, Copy (fold_left Append children (NewForeachNode pos symbol)) = Panic m).
Proof.
  split.
  - intros n' H. simpl in H. destruct lst; simpl in H; try discriminate;
      (split; [|discriminate]);
      match type of H with
      | bind ?r _ = _ => destruct r; simpl in H; [|discriminate]
      | _ => idtac
      end; now injection H as <-.
  - unfold NewForeachNode. generalize (@nil Node) as ns.
    induction children as [|c cs IH]; intros ns; simpl.
    + eexists. reflexivity.
    + apply IH.
Qed.

End ParserProperties.

(** ** Concrete copies *)

Lemma Copy_keeps_type_iff_witness :
  (Parser.Type_ (Parser.ListNode Parser.NodeList 0 []) = Ok Parser.NodeRoot
   <-> ~ In Parser.NodeRoot Parser.overridden_types) /\
  (In Parser.NodeRoot Parser.overridden_types ->
   Parser.Type_ (Parser.ListNode Parser.NodeList 0 [])
   = Ok (if Parser.NodeRoot =? Parser.NodeFetchSymbol
         then Parser.NodeText else Parser.NodeList)).
Proof.
  apply (Copy_keeps_type_iff Parser.NewRootNode); reflexivity.
Defined.
